(** * server.js: the image-processing orchestrator and the download relay

    A shallow embedding of the two request handlers of [server.js]:
    [POST /api/process] (hosting upload followed by the transform call, with
    the substring-based mapping of failures onto HTTP statuses) and
    [GET /api/download] (the byte relay with its derived file name).

    Conventions of the embedding:
    - a JavaScript string is a [string] of 8-bit code units (Latin-1 range);
    - a JavaScript number is an integer [Z] (statuses, clock readings,
      lengths); an integer in a parsed JSON body stands for the double
      nearest to it, which is the number the parser yields;
    - [throw new Error(m)] is the failure [Throw m] of the handler monad and
      the handler's [try]/[catch] is [try_catch];
    - the outside world (clock, network, date rendering) is an [Env] of
      oracles; every outbound call, clock reading and response written to
      the client is appended to the log of the run;
    - a response of the network is taken as received in full ([text()] and
      [buffer()] do not fail; [json()] may reject, as on a body that does
      not parse), and its content type is a legal header value, as the
      HTTP client only reports such; console output is left out. *)

From Stdlib Require Import ZArith List String Ascii Bool Lia.
From Stdlib Require Import DecimalString.
Import ListNotations.
Set Warnings "-register-all".
Open Scope string_scope.
Open Scope Z_scope.

(** ** JavaScript strings *)

Module JsString.

(** [s.startsWith(p)] *)
Fixpoint startsWith (s p : string) {struct p} : bool :=
  match p with
  | EmptyString => true
  | String c p' =>
      match s with
      | EmptyString => false
      | String d s' => if Ascii.eqb d c then startsWith s' p' else false
      end
  end.

(** [s.includes(k)]: [k] occurs at some position of [s]. *)
Fixpoint includes (s k : string) : bool :=
  startsWith s k ||
  match s with
  | EmptyString => false
  | String _ s' => includes s' k
  end.

(** White space and line terminators among the 8-bit code units:
    TAB, LF, VT, FF, CR, SP and NBSP. *)
Definition isWhiteSpace (c : ascii) : bool :=
  let n := N_of_ascii c in
  (((9 <=? n) && (n <=? 13)) || (n =? 32) || (n =? 160))%N.

Fixpoint trimStart (s : string) : string :=
  match s with
  | EmptyString => EmptyString
  | String c s' => if isWhiteSpace c then trimStart s' else s
  end.

Fixpoint trimEnd (s : string) : string :=
  match s with
  | EmptyString => EmptyString
  | String c s' =>
      match trimEnd s' with
      | EmptyString => if isWhiteSpace c then EmptyString else String c EmptyString
      | t => String c t
      end
  end.

(** [s.trim()] *)
Definition trim (s : string) : string := trimEnd (trimStart s).

(** Truthiness of a string: every string but the empty one. *)
Definition truthy (s : string) : bool :=
  match s with EmptyString => false | _ => true end.

(** [String(n)] and the template conversion of an integer number. *)
Definition ofNumber (n : Z) : string := NilZero.string_of_int (Z.to_int n).

(** The characters of a printed integer: the digits and the sign. *)
Definition numericChar (c : ascii) : bool :=
  let n := N_of_ascii c in
  (((48 <=? n) && (n <=? 57)) || (n =? 45))%N.

Fixpoint allNumeric (s : string) : bool :=
  match s with
  | EmptyString => true
  | String c s' => numericChar c && allNumeric s'
  end.

Definition hexDigit (n : N) : ascii :=
  ascii_of_N (if (n <? 10)%N then 48 + n else 55 + n)%N.

(** [%XX] with upper-case hexadecimal digits. *)
Definition percent (b : N) (rest : string) : string :=
  String "%" (String (hexDigit (b / 16)) (String (hexDigit (b mod 16)) rest)).

(** The characters [encodeURIComponent] leaves alone:
    [A-Z a-z 0-9 - _ . ! ~ * ' ( )]. *)
Definition uriUnreserved (c : ascii) : bool :=
  let n := N_of_ascii c in
  (((65 <=? n) && (n <=? 90)) || ((97 <=? n) && (n <=? 122)) ||
   ((48 <=? n) && (n <=? 57)) ||
   (n =? 45) || (n =? 95) || (n =? 46) || (n =? 33) || (n =? 126) ||
   (n =? 42) || (n =? 39) || (n =? 40) || (n =? 41))%N.

(** [encodeURIComponent(s)]: the UTF-8 bytes of every other code unit,
    percent-escaped (one byte below 128, two bytes from 128 to 255). *)
Fixpoint encodeURIComponent (s : string) : string :=
  match s with
  | EmptyString => EmptyString
  | String c s' =>
      let n := N_of_ascii c in
      if uriUnreserved c then String c (encodeURIComponent s')
      else if (n <? 128)%N then percent n (encodeURIComponent s')
      else percent (192 + n / 64) (percent (128 + n mod 64) (encodeURIComponent s'))
  end.

End JsString.

Import JsString.

(** ** JavaScript values, as far as the handlers observe them *)

Inductive jsval : Type :=
| JUndefined
| JNull
| JBool (b : bool)
| JNum (n : Z)
| JStr (s : string)
| JArr (items : list jsval)
| JObj (fields : list (string * jsval)).

Module Js.

(** Truthiness: [undefined], [null], [false], [0] and [""] are falsy. *)
Definition truthy (v : jsval) : bool :=
  match v with
  | JUndefined | JNull => false
  | JBool b => b
  | JNum n => negb (n =? 0)
  | JStr s => JsString.truthy s
  | JArr _ | JObj _ => true
  end.

(** [a || b] *)
Definition or (a b : jsval) : jsval := if truthy a then a else b.

Fixpoint join (sep : string) (l : list string) : string :=
  match l with
  | [] => ""
  | [x] => x
  | x :: rest => x ++ sep ++ join sep rest
  end.

(** A JSON integer literal denotes the double nearest to it (ties to
    even); [None] stands for [Infinity].  For a positive [n]. *)
Definition nearestDouble (n : Z) : option Z :=
  let bits := Z.log2 n + 1 in
  if bits <=? 53 then Some n
  else
    let sh := bits - 53 in
    let q := Z.shiftr n sh in
    let r := n - Z.shiftl q sh in
    let half := Z.shiftl 1 (sh - 1) in
    let q' := if (half <? r) || ((r =? half) && Z.odd q) then q + 1 else q in
    let v := Z.shiftl q' sh in
    if Z.shiftl 1 1024 <=? v then None else Some v.

(** Of the two [k]-digit numbers around [x / 10^(n-k)], the one nearest
    to [x] among those that denote [x] when scaled back, if any. *)
Definition shortestAt (x n k : Z) : option Z :=
  let scale := 10 ^ (n - k) in
  let lo := x / scale in
  let fits s :=
    (10 ^ (k - 1) <=? s) && (s <? 10 ^ k) &&
    match nearestDouble (s * scale) with Some y => y =? x | None => false end in
  let dist s := Z.abs (s * scale - x) in
  match fits lo, fits (lo + 1) with
  | true, true =>
      if dist lo <? dist (lo + 1) then Some lo
      else if dist (lo + 1) <? dist lo then Some (lo + 1)
      else if Z.even lo then Some lo else Some (lo + 1)
  | true, false => Some lo
  | false, true => Some (lo + 1)
  | false, false => None
  end.

(** The fewest digits [s] and the position [n] of the decimal point such
    that [s * 10^(n-k)] denotes the double [x], trying [k], [k+1], ... *)
Fixpoint shortest (fuel : nat) (x digits k : Z) : option (Z * Z) :=
  match fuel with
  | O => None
  | S fuel' =>
      match shortestAt x digits k, shortestAt x (digits + 1) k with
      | Some s, Some s' =>
          if Z.abs (s' * 10 ^ (digits + 1 - k) - x) <? Z.abs (s * 10 ^ (digits - k) - x)
          then Some (s', digits + 1) else Some (s, digits)
      | Some s, None => Some (s, digits)
      | None, Some s' => Some (s', digits + 1)
      | None, None => shortest fuel' x digits (k + 1)
      end
  end.

Fixpoint zeros (n : nat) : string :=
  match n with
  | O => EmptyString
  | S n' => String "0" (zeros n')
  end.

(** [Number.prototype.toString] of a positive integer-valued double: its
    shortest digits, padded with zeros up to 21 places and in exponent
    form beyond. *)
Definition printDouble (x : Z) : string :=
  let places := Z.of_nat (String.length (ofNumber x)) in
  match shortest 17 x places 1 with
  | Some (s, n) =>
      let digits := ofNumber s in
      if n <=? 21 then digits ++ zeros (Z.to_nat (n - Z.of_nat (String.length digits)))
      else
        match digits with
        | String d EmptyString => String d ("e+" ++ ofNumber (n - 1))
        | String d rest => String d ("." ++ rest ++ "e+" ++ ofNumber (n - 1))
        | EmptyString => EmptyString
        end
  | None => ofNumber x
  end.

(** [String(n)] for the number a JSON integer literal [n] denotes. *)
Definition numberToString (n : Z) : string :=
  if n =? 0 then "0"
  else
    (if n <? 0 then "-" else "") ++
    match nearestDouble (Z.abs n) with
    | None => "Infinity"
    | Some x => printDouble x
    end.

(** [fields] has an own property [k]. *)
Definition hasOwn (k : string) (fields : list (string * jsval)) : bool :=
  existsb (fun kv => String.eqb (fst kv) k) fields.

(** [String(v)], the conversion [new Error(v)] applies to its argument
    ([inl m]: it throws a [TypeError] of message [m]).  An array joins the
    conversions of its elements; an object is [[object Object]] unless it
    has an own [toString] property, which a parsed value cannot call. *)
Fixpoint toString (v : jsval) : string + string :=
  match v with
  | JUndefined => inr "undefined"
  | JNull => inr "null"
  | JBool true => inr "true"
  | JBool false => inr "false"
  | JNum n => inr (numberToString n)
  | JStr s => inr s
  | JArr items =>
      match
        (fix elements (l : list jsval) : string + list string :=
           match l with
           | [] => inr []
           | x :: rest =>
               match (match x with
                      | JUndefined | JNull => inr ""
                      | _ => toString x
                      end) with
               | inl m => inl m
               | inr s =>
                   match elements rest with
                   | inl m => inl m
                   | inr ss => inr (s :: ss)
                   end
               end
           end) items
      with
      | inl m => inl m
      | inr ss => inr (join "," ss)
      end
  | JObj fields =>
      if hasOwn "toString" fields
      then inl "Cannot convert object to primitive value"
      else inr "[object Object]"
  end.

(** The numbers in [v] are safe integers, which print as their digits. *)
Fixpoint safe (v : jsval) : bool :=
  match v with
  | JNum n => Z.abs n <=? 9007199254740991
  | JArr items => forallb safe items
  | _ => true
  end.

Fixpoint lookup (k : string) (fields : list (string * jsval)) : jsval :=
  match fields with
  | [] => JUndefined
  | (k', v) :: rest => if String.eqb k' k then v else lookup k rest
  end.

(** [v.k] for a property name [k] that no prototype defines: a [TypeError]
    on [null] and [undefined], the own property of an object, and
    [undefined] on everything else. *)
Definition get (v : jsval) (k : string) : string + jsval :=
  match v with
  | JUndefined =>
      inl ("Cannot read properties of undefined (reading '" ++ k ++ "')")
  | JNull =>
      inl ("Cannot read properties of null (reading '" ++ k ++ "')")
  | JObj fields => inr (lookup k fields)
  | _ => inr JUndefined
  end.

(** [v.startsWith(p)] on a truthy [v] named [what] in the source: only a
    string has the method, calling it on anything else is a [TypeError]. *)
Definition callStartsWith (what : string) (v : jsval) (p : string) : string + bool :=
  match v with
  | JStr s => inr (startsWith s p)
  | JUndefined | JNull =>
      inl ("Cannot read properties of "
           ++ match v with JNull => "null" | _ => "undefined" end
           ++ " (reading 'startsWith')")
  | _ => inl (what ++ ".startsWith is not a function")
  end.

(** [s || d] for an optional string (a missing field is [undefined]). *)
Definition orDefault (s : option string) (d : string) : string :=
  match s with
  | Some x => if JsString.truthy x then x else d
  | None => d
  end.

Definition present (s : option string) : bool :=
  match s with
  | Some x => JsString.truthy x
  | None => false
  end.

End Js.

(** ** [Buffer.from(s, 'base64')]

    The decoder of the Node runtime, which the handler calls on the [image]
    field.  It is lenient: a character outside the alphabet is skipped, the
    first [=] ends the input, both the standard and the URL-safe alphabet
    are read, and a trailing group of two or three characters still yields
    one or two bytes.  It has no failure case. *)

Module Buffer.

Definition unbase64 (c : ascii) : option N :=
  let n := N_of_ascii c in
  (if (65 <=? n) && (n <=? 90) then Some (n - 65)
   else if (97 <=? n) && (n <=? 122) then Some (n - 71)
   else if (48 <=? n) && (n <=? 57) then Some (n + 4)
   else if (n =? 43) || (n =? 45) then Some 62
   else if (n =? 47) || (n =? 95) then Some 63
   else None)%N.

(** The 6-bit digits of the input, up to the first [=]. *)
Fixpoint sextets (s : string) : list N :=
  match s with
  | EmptyString => []
  | String c s' =>
      if Ascii.eqb c "=" then []
      else match unbase64 c with
           | Some d => d :: sextets s'
           | None => sextets s'
           end
  end.

Definition octet (n : N) : Byte.byte := byte_of_ascii (ascii_of_N (n mod 256)).

Fixpoint octets (l : list N) : list Byte.byte :=
  match l with
  | a :: b :: c :: d :: rest =>
      octet (N.lor (N.shiftl a 2) (N.shiftr b 4)) ::
      octet (N.lor (N.shiftl (N.land b 15) 4) (N.shiftr c 2)) ::
      octet (N.lor (N.shiftl (N.land c 3) 6) d) :: octets rest
  | [a; b; c] =>
      [octet (N.lor (N.shiftl a 2) (N.shiftr b 4));
       octet (N.lor (N.shiftl (N.land b 15) 4) (N.shiftr c 2))]
  | [a; b] => [octet (N.lor (N.shiftl a 2) (N.shiftr b 4))]
  | _ => []
  end.

(** [Buffer.from(s, 'base64')]; a buffer is its list of bytes. *)
Definition from_base64 (s : string) : list Byte.byte := octets (sextets s).

End Buffer.

(** ** The outside world: requests, responses, clock *)

(** A part of a [FormData] body, as [formData.append] adds it. *)
Inductive form_part : Type :=
| TextPart (name value : string)
| FilePart (name : string) (content : list Byte.byte) (filename contentType : string).

(** The headers of an outbound request: [formData.getHeaders()] (the
    multipart content type with its generated boundary) or a literal. *)
Inductive fetch_headers : Type :=
| FormDataHeaders
| Headers (h : list (string * string)).

(** The arguments of one [fetch] call. *)
Record fetch_request : Type := {
  fetch_url : string;
  fetch_method : string;
  fetch_hdrs : fetch_headers;
  fetch_body : list form_part
}.

(** What the handlers read of a response of [node-fetch]: the status, the
    [content-type] header ([None] for [null]), the body as [text()], as
    [buffer()], and the outcome of [json()] ([inl m]: rejected with an
    error of message [m]). *)
Record fetch_response : Type := {
  status : Z;
  content_type : option string;
  text : string;
  buffer : list Byte.byte;
  json : string + jsval
}.

(** [response.ok] *)
Definition ok (r : fetch_response) : bool :=
  (200 <=? status r) && (status r <? 300).

(** The environment of a run: the successive readings of the system clock,
    [Date.prototype.toISOString], and the network ([inl m]: the call
    rejects with an error of message [m]). *)
Record Env : Type := {
  clock : nat -> Z;
  toISOString : Z -> string;
  network : fetch_request -> string + fetch_response
}.

(** What the handler writes to the client. *)
Inductive payload : Type :=
| Json (v : jsval)
| Bytes (b : list Byte.byte).

Record reply : Type := {
  code : Z;
  headers : list (string * jsval);
  body : payload
}.

(** The observable effects of a run, in the order they happen. *)
Inductive event : Type :=
| ENow (t : Z)
| EFetch (r : fetch_request)
| ESend (r : reply).

(** The state of a run: the clock readings made, the log, and the headers
    set on the response so far. *)
Record State : Type := {
  ticks : nat;
  log : list event;
  pending : list (string * jsval)
}.

Definition start : State := {| ticks := 0; log := []; pending := [] |}.

(** ** The handler monad: environment, state, and thrown errors *)

Inductive outcome (A : Type) : Type :=
| Done (a : A)
| Throw (message : string).
Arguments Done {A} a.
Arguments Throw {A} message.

Definition M (A : Type) : Type := Env -> State -> outcome A * State.

Definition ret {A} (a : A) : M A := fun _ s => (Done a, s).

Definition bind {A B} (m : M A) (k : A -> M B) : M B :=
  fun e s =>
    match m e s with
    | (Done a, s') => k a e s'
    | (Throw msg, s') => (Throw msg, s')
    end.

Definition throw {A} (message : string) : M A := fun _ s => (Throw message, s).

(** [try { m } catch (error) { h error.message }] *)
Definition try_catch {A} (m : M A) (h : string -> M A) : M A :=
  fun e s =>
    match m e s with
    | (Done a, s') => (Done a, s')
    | (Throw msg, s') => h msg e s'
    end.

(** An operation that either yields a value or throws. *)
Definition lift {A} (r : string + A) : M A :=
  match r with
  | inl msg => throw msg
  | inr a => ret a
  end.

Notation "x <- m ;; k" := (bind m (fun x => k))
  (at level 61, m at next level, right associativity).
Notation "m ;;; k" := (bind m (fun _ => k))
  (at level 61, right associativity).

(** [Date.now()] and the reading behind [new Date()]. *)
Definition Date_now : M Z :=
  fun e s =>
    let t := clock e (ticks s) in
    (Done t, {| ticks := S (ticks s); log := log s ++ [ENow t]; pending := pending s |}).

(** [await fetch(url, options)] *)
Definition fetch (r : fetch_request) : M fetch_response :=
  fun e s =>
    let s' := {| ticks := ticks s; log := log s ++ [EFetch r]; pending := pending s |} in
    match network e r with
    | inl msg => (Throw msg, s')
    | inr resp => (Done resp, s')
    end.

(** [res.status(c).json(v)], and [res.json(v)] with the default status.
    The headers of a reply are those the handler has set with
    [res.setHeader] before writing it. *)
Definition res_json (c : Z) (v : jsval) : M unit :=
  fun _ s =>
    (Done tt, {| ticks := ticks s;
                 log := log s ++
                        [ESend {| code := c; headers := pending s; body := Json v |}];
                 pending := pending s |}).

(** [res.send(buffer)] *)
Definition res_send (b : list Byte.byte) : M unit :=
  fun _ s =>
    (Done tt, {| ticks := ticks s;
                 log := log s ++
                        [ESend {| code := 200; headers := pending s; body := Bytes b |}];
                 pending := pending s |}).

(** A character Node accepts in a header value: TAB, and every code unit
    from 0x20 on except DEL. *)
Definition headerChar (c : ascii) : bool :=
  let n := N_of_ascii c in
  ((n =? 9) || ((32 <=? n) && (n <=? 126)) || (128 <=? n))%N.

Fixpoint legalHeader (s : string) : bool :=
  match s with
  | EmptyString => true
  | String c s' => headerChar c && legalHeader s'
  end.

(** A value [res.setHeader] accepts: a number, or a string of legal
    characters. *)
Definition legalValue (v : jsval) : bool :=
  match v with
  | JStr s => legalHeader s
  | _ => true
  end.

(** [res.setHeader(name, value)] with a value that cannot hold an illegal
    character: a header value received from the HTTP client, which reports
    legal values only. *)
Definition res_setHeader_received (name : string) (value : jsval) : M unit :=
  fun _ s =>
    (Done tt, {| ticks := ticks s; log := log s;
                 pending := pending s ++ [(name, value)] |}).

(** [res.setHeader(name, value)]: the runtime throws [ERR_INVALID_CHAR]
    for a value with an illegal character, and the header is not set. *)
Definition res_setHeader (name : string) (value : jsval) : M unit :=
  fun e s =>
    if legalValue value then res_setHeader_received name value e s
    else (Throw ("Invalid character in header content ["
                 ++ String (ascii_of_nat 34) name ++ String (ascii_of_nat 34) "]"), s).

(** [res.headersSent] *)
Definition headersSent : M bool :=
  fun _ s =>
    (Done (existsb (fun ev => match ev with ESend _ => true | _ => false end) (log s)), s).

(** [new Date().toISOString()] *)
Definition new_Date_toISOString : M string :=
  fun e s =>
    let t := clock e (ticks s) in
    (Done (toISOString e t),
     {| ticks := S (ticks s); log := log s ++ [ENow t]; pending := pending s |}).

(** The effects of running a handler from a fresh request. *)
Definition run (m : M unit) (e : Env) : list event := log (snd (m e start)).

(** ** [POST /api/process] *)

(** [req.body], destructured: each field is a string or [undefined]. *)
Record process_body : Type := {
  image : option string;
  filename : option string;
  mimetype : option string
}.

(** The upload to the hosting service (lines 43-54). *)
Definition uploadRequest (b : process_body) (buf : list Byte.byte) : fetch_request :=
  {| fetch_url := "https://catbox.moe/user/api.php";
     fetch_method := "POST";
     fetch_hdrs := FormDataHeaders;
     fetch_body :=
       [TextPart "reqtype" "fileupload";
        FilePart "fileToUpload" buf
          (Js.orDefault (filename b) "image.png")
          (Js.orDefault (mimetype b) "image/png")] |}.

(** The call of the transform API (lines 74-83). *)
Definition apiRequest (imageUrl : string) : fetch_request :=
  {| fetch_url :=
       "https://api.nekolabs.web.id/style-changer/remove-clothes?imageUrl="
       ++ encodeURIComponent (trim imageUrl);
     fetch_method := "GET";
     fetch_hdrs :=
       Headers
         [("User-Agent", "Mozilla/5.0 (Windows NT 10.0; Win64; x64) AppleWebKit/537.36");
          ("Accept", "application/json");
          ("Connection", "keep-alive")];
     fetch_body := [] |}.

(** The message thrown for a transform response that is not [ok]
    (lines 93-103). *)
Definition apiErrorMessage (st : Z) : string :=
  if st =? 400 then "Invalid image format or unsupported image type"
  else if st =? 404 then "Image not found. The uploaded URL may have expired"
  else if st =? 429 then "Too many requests. Please wait a moment and try again"
  else if st >=? 500 then "API server error. Please try again in a few minutes"
  else "API error (status " ++ ofNumber st ++ ")".

(** The [try] block (lines 27-138). *)
Definition process_try (b : process_body) : M unit :=
  if negb (Js.present (image b))
  then res_json 400 (JObj [("success", JBool false);
                           ("message", JStr "No image data provided")])
  else
      let img := Js.orDefault (image b) "" in
      startTime <- Date_now ;;
      let buf := Buffer.from_base64 img in
      uploadResponse <- fetch (uploadRequest b buf) ;;
      (if negb (ok uploadResponse)
       then throw "Failed to upload image to hosting"
       else ret tt) ;;;
      let imageUrl := text uploadResponse in
      t1 <- Date_now ;;
      let uploadTime := t1 - startTime in
      (if negb (JsString.truthy imageUrl) || negb (startsWith imageUrl "https://")
       then throw "Invalid URL from image hosting"
       else ret tt) ;;;
      processStartTime <- Date_now ;;
      apiResponse <- fetch (apiRequest imageUrl) ;;
      t3 <- Date_now ;;
      let processTime := t3 - processStartTime in
      (if negb (ok apiResponse)
       then throw (apiErrorMessage (status apiResponse))
       else ret tt) ;;;
      (match content_type apiResponse with
       | None => throw "API returned invalid response format"
       | Some ct =>
           if negb (JsString.truthy ct) || negb (includes ct "application/json")
           then throw "API returned invalid response format"
           else ret tt
       end) ;;;
      data <- lift (json apiResponse) ;;
      success <- lift (Js.get data "success") ;;
      (if negb (Js.truthy success)
       then message <- lift (Js.get data "message") ;;
            text <- lift (Js.toString (Js.or message (JStr "API processing failed"))) ;;
            throw text
       else ret tt) ;;;
      result <- lift (Js.get data "result") ;;
      valid <- (if negb (Js.truthy result) then ret false
                else lift (Js.callStartsWith "data.result" result "http")) ;;
      (if negb valid then throw "Invalid result from API" else ret tt) ;;;
      t4 <- Date_now ;;
      let totalTime := t4 - startTime in
      timestamp <- lift (Js.get data "timestamp") ;;
      timestamp' <- (if Js.truthy timestamp then ret timestamp
                     else iso <- new_Date_toISOString ;; ret (JStr iso)) ;;
      responseTime <- lift (Js.get data "responseTime") ;;
      res_json 200
        (JObj [("success", JBool true);
               ("result", result);
               ("uploadedUrl", JStr (trim imageUrl));
               ("timestamp", timestamp');
               ("timing",
                JObj [("upload", JStr (ofNumber uploadTime ++ "ms"));
                      ("processing",
                       Js.or responseTime (JStr (ofNumber processTime ++ "ms")));
                      ("total", JStr (ofNumber totalTime ++ "ms"))])]).

(** The status the [catch] block derives from the message (lines 144-155). *)
Definition statusCode (message : string) : Z :=
  if includes message "Invalid" || includes message "unsupported" then 400
  else if includes message "not found" || includes message "expired" then 404
  else if includes message "Too many" then 429
  else if includes message "reach" || includes message "unreachable" then 503
  else 500.

(** The JSON body of a [ProcessError] (lines 157-161). *)
Definition errorBody (errorMessage iso : string) : jsval :=
  JObj [("success", JBool false);
        ("message", JStr errorMessage);
        ("timestamp", JStr iso)].

(** The [catch] block (lines 140-162). *)
Definition process_catch (message : string) : M unit :=
  let errorMessage := if JsString.truthy message then message else "Failed to process image" in
  iso <- new_Date_toISOString ;;
  res_json (statusCode message) (errorBody errorMessage iso).

(** The handler of [POST /api/process]. *)
Definition process (b : process_body) : M unit :=
  try_catch (process_try b) process_catch.

(** ** [GET /api/download] *)

(** [req.query]: each parameter is a string or [undefined]. *)
Record download_query : Type := {
  query_url : option string;
  query_filename : option string
}.

(** The double quote character. *)
Definition dquote : string := String (ascii_of_nat 34) EmptyString.

(** The fetch of the remote file (lines 180-184); [fetch] defaults to GET. *)
Definition downloadRequest (imageUrl : string) : fetch_request :=
  {| fetch_url := imageUrl;
     fetch_method := "GET";
     fetch_hdrs :=
       Headers
         [("User-Agent", "Mozilla/5.0 (Windows NT 10.0; Win64; x64) AppleWebKit/537.36")];
     fetch_body := [] |}.

(** The file extension derived from the content type (lines 196-203). *)
Definition extension (contentType : string) : string :=
  if includes contentType "jpeg" || includes contentType "jpg" then "jpg"
  else if includes contentType "webp" then "webp"
  else if includes contentType "gif" then "gif"
  else "png".

(** The [try] block (lines 168-213). *)
Definition download_try (q : download_query) : M unit :=
  if negb (Js.present (query_url q))
  then res_json 400 (JObj [("success", JBool false);
                           ("message", JStr "Image URL is required")])
  else
    let imageUrl := Js.orDefault (query_url q) "" in
    let customFilename := query_filename q in
    response <- fetch (downloadRequest imageUrl) ;;
    (if negb (ok response)
     then throw ("Failed to fetch image: " ++ ofNumber (status response))
     else ret tt) ;;;
    let imageBuffer := buffer response in
    let contentType := Js.orDefault (content_type response) "image/png" in
    name <- (if Js.present customFilename
             then ret (Js.orDefault customFilename "")
             else t <- Date_now ;;
                  ret ("result_" ++ ofNumber t ++ "." ++ extension contentType)) ;;
    res_setHeader_received "Content-Type" (JStr contentType) ;;;
    res_setHeader "Content-Disposition"
      (JStr ("attachment; filename=" ++ dquote ++ name ++ dquote)) ;;;
    res_setHeader "Content-Length" (JNum (Z.of_nat (List.length imageBuffer))) ;;;
    res_setHeader "Cache-Control" (JStr "no-cache") ;;;
    res_send imageBuffer.

(** The [catch] block (lines 215-224). *)
Definition download_catch (message : string) : M unit :=
  sent <- headersSent ;;
  if negb sent
  then res_json 500
         (JObj [("success", JBool false);
                ("message",
                 JStr (if JsString.truthy message then message
                       else "Failed to download image"))])
  else ret tt.

(** The handler of [GET /api/download]. *)
Definition download (q : download_query) : M unit :=
  try_catch (download_try q) download_catch.

(** ** Observations on a run *)

(** The responses written to the client, in order. *)
Definition replies (l : list event) : list reply :=
  flat_map (fun ev => match ev with ESend r => [r] | _ => [] end) l.

(** The outbound calls, in order. *)
Definition fetches (l : list event) : list fetch_request :=
  flat_map (fun ev => match ev with EFetch r => [r] | _ => [] end) l.

(** The run gets as far as the transform call and receives [r] from it:
    the image is present, the hosting upload answered [up] with a 2xx
    status and a body that starts with [https://], and the transform call
    made with that body returned the response [r]. *)
Definition reaches_transform (e : Env) (b : process_body) (up r : fetch_response) : Prop :=
  Js.present (image b) = true /\
  network e (uploadRequest b (Buffer.from_base64 (Js.orDefault (image b) ""))) = inr up /\
  ok up = true /\
  startsWith (text up) "https://" = true /\
  network e (apiRequest (text up)) = inr r.

(** The transform response passes the content-type check of line 108. *)
Definition jsonShaped (r : fetch_response) : bool :=
  match content_type r with
  | Some ct => includes ct "application/json"
  | None => false
  end.

(** The transform call succeeded: a 2xx response of JSON content type whose
    parsed body is an object with a truthy [success] and a [result] string
    that starts with [http]. *)
Definition transform_succeeds (r : fetch_response)
    (fields : list (string * jsval)) (result : string) : Prop :=
  ok r = true /\
  jsonShaped r = true /\
  json r = inr (JObj fields) /\
  Js.truthy (Js.lookup "success" fields) = true /\
  Js.lookup "result" fields = JStr result /\
  startsWith result "http" = true.

(** A field of the [timing] object of a JSON reply. *)
Definition timing (k : string) (r : reply) : jsval :=
  match body r with
  | Json (JObj f) =>
      match Js.lookup "timing" f with
      | JObj t => Js.lookup k t
      | _ => JUndefined
      end
  | _ => JUndefined
  end.

(** ** Stubbed worlds for concrete runs *)

(** The hosting service answers [upload], every other call answers [api];
    the clock advances by ten milliseconds per reading. *)
Definition stub (upload api : string + fetch_response) : Env :=
  {| clock := fun k => 1000 + 10 * Z.of_nat k;
     toISOString := fun t => "T+" ++ ofNumber t;
     network := fun r =>
       if String.eqb (fetch_method r) "POST" then upload else api |}.

Definition plain (st : Z) (ct : option string) (txt : string) : fetch_response :=
  {| status := st; content_type := ct; text := txt;
     buffer := list_byte_of_string txt; json := inl "invalid json response body" |}.

Definition jsonResponse (st : Z) (data : jsval) : fetch_response :=
  {| status := st; content_type := Some "application/json; charset=utf-8";
     text := ""; buffer := []; json := inr data |}.

Definition host_ok : fetch_response :=
  plain 200 (Some "text/plain") "https://host.example/cat.png".

Definition cat : process_body :=
  {| image := Some "aGVsbG8="; filename := Some "cat.png"; mimetype := Some "image/png" |}.

Definition forbidden : fetch_response := plain 403 (Some "text/html") "Forbidden".

Definition no_result : fetch_response :=
  jsonResponse 200 (JObj [("success", JBool true)]).

Definition enotfound : string :=
  "request to https://catbox.moe/user/api.php failed, reason: getaddrinfo ENOTFOUND catbox.moe".

Definition self_timed_fields : list (string * jsval) :=
  [("success", JBool true);
   ("result", JStr "https://cdn.example/out.png");
   ("responseTime", JStr "1.2s")].

Definition self_timed : fetch_response := jsonResponse 200 (JObj self_timed_fields).

Definition transformed_fields : list (string * jsval) :=
  [("success", JBool true); ("result", JStr "https://cdn.example/out.png")].

Definition transformed : fetch_response := jsonResponse 200 (JObj transformed_fields).

Definition jpeg_file : fetch_response :=
  {| status := 200; content_type := Some "image/jpeg"; text := "";
     buffer := list_byte_of_string "JFIF"; json := inl "invalid json response body" |}.

(** * script.js: the page script

    The file holds two copies of the page script: lines 1-376 (with
    diagnostic logging, a client-side time limit and a check of the result
    URL) and lines 376-689 (plain).  The functions that differ are
    embedded twice, in [Verbose] and in [Plain]. *)

(** A thrown value of the page: [error.name] and [error.message]. *)
Record js_error : Type := {
  error_name : string;
  error_message : string
}.

(** [new Error(m)] and a [TypeError] of the runtime. *)
Definition Error (m : string) : js_error :=
  {| error_name := "Error"; error_message := m |}.

Definition TypeError (m : string) : js_error :=
  {| error_name := "TypeError"; error_message := m |}.

(** What [throw new Error(v)] throws: the error with [String(v)] as its
    message, or the [TypeError] of a conversion that fails. *)
Definition newError (v : jsval) : js_error :=
  match Js.toString v with
  | inr m => Error m
  | inl m => TypeError m
  end.

(** What the script reads of a [File]. *)
Record file : Type := {
  file_name : string;
  file_type : string;
  file_size : Z
}.

(** The text up to the next comma. *)
Fixpoint untilComma (s : string) : string :=
  match s with
  | EmptyString => EmptyString
  | String c s' => if Ascii.eqb c "," then EmptyString else String c (untilComma s')
  end.

(** [s.split(',')[1]]: the piece after the first comma, [undefined] when
    there is no comma. *)
Fixpoint split_1 (s : string) : option string :=
  match s with
  | EmptyString => None
  | String c s' => if Ascii.eqb c "," then Some (untilComma s') else split_1 s'
  end.

(** The request body [processImage] sends, as [express.json] hands it to
    the handler ([JSON.stringify] drops an [undefined] field). *)
Definition processPayload (selectedFile : file) (base64 : string) : process_body :=
  {| image := split_1 base64;
     filename := Some (file_name selectedFile);
     mimetype := Some (file_type selectedFile) |}.

(** Computations of the page that return or throw. *)
Definition attempt (A : Type) : Type := js_error + A.

Definition abind {A B} (m : attempt A) (k : A -> attempt B) : attempt B :=
  match m with
  | inl err => inl err
  | inr a => k a
  end.

(** A property read or a method call of the runtime that may throw a
    [TypeError]. *)
Definition runtime {A} (r : string + A) : attempt A :=
  match r with
  | inl m => inl (TypeError m)
  | inr a => inr a
  end.

(** [await response.json()]: a body that does not parse rejects with a
    [SyntaxError]. *)
Definition parsed (r : fetch_response) : attempt jsval :=
  match json r with
  | inl m => inl {| error_name := "SyntaxError"; error_message := m |}
  | inr v => inr v
  end.

(** [if (c) throw e] *)
Definition throw_if (c : bool) (e : js_error) : attempt unit :=
  if c then inl e else inr tt.

Notation "x <~ m ;; k" := (abind m (fun x => k))
  (at level 61, m at next level, right associativity).
Notation "m ;;~ k" := (abind m (fun _ => k))
  (at level 61, right associativity).

(** [!contentType || !contentType.includes('application/json')] *)
Definition notJson (r : fetch_response) : bool :=
  match content_type r with
  | None => true
  | Some ct => negb (JsString.truthy ct) || negb (includes ct "application/json")
  end.

Module Verbose.

(** The [try] block of [processImage] (lines 188-255); [server] is the
    outcome of the [fetch] of [/api/process] for a request body. *)
Definition processImage_try (selectedFile : option file) (base64 : string)
    (server : process_body -> attempt fetch_response) : attempt jsval :=
  f <~ (match selectedFile with
        | None => inl (TypeError "Cannot read properties of null (reading 'name')")
        | Some f => inr f
        end) ;;
  response <~ server (processPayload f base64) ;;
  throw_if (notJson response) (Error "Server returned invalid response (not JSON)") ;;~
  data <~ parsed response ;;
  (if negb (ok response)
   then message <~ runtime (Js.get data "message") ;;
        inl (newError
               (Js.or message
                  (JStr ("Server error (" ++ ofNumber (status response) ++ ")"))))
   else inr tt) ;;~
  success <~ runtime (Js.get data "success") ;;
  (if negb (Js.truthy success)
   then message <~ runtime (Js.get data "message") ;;
        inl (newError (Js.or message (JStr "Processing failed")))
   else inr tt) ;;~
  result <~ runtime (Js.get data "result") ;;
  throw_if (negb (Js.truthy result)) (Error "No result from API") ;;~
  valid <~ runtime (Js.callStartsWith "data.result" result "http") ;;
  throw_if (negb valid) (Error "Invalid result URL from API") ;;~
  inr data.

(** The [catch] block (lines 257-272). *)
Definition processImage_catch (error : js_error) : attempt jsval :=
  if String.eqb (error_name error) "AbortError"
  then inl (Error "Processing took too long (>2 min). Try a smaller image.")
  else if String.eqb (error_name error) "TypeError" && includes (error_message error) "fetch"
  then inl (Error "Cannot connect to server. Check your internet connection.")
  else inl error.

(** [processImage] (lines 187-273). *)
Definition processImage (selectedFile : option file) (base64 : string)
    (server : process_body -> attempt fetch_response) : attempt jsval :=
  match processImage_try selectedFile base64 server with
  | inl error => processImage_catch error
  | inr data => inr data
  end.

End Verbose.

Module Plain.

(** [processImage] of the second copy (lines 547-587); its [catch] block
    logs and rethrows. *)
Definition processImage (selectedFile : option file) (base64 : string)
    (server : process_body -> attempt fetch_response) : attempt jsval :=
  f <~ (match selectedFile with
        | None => inl (TypeError "Cannot read properties of null (reading 'name')")
        | Some f => inr f
        end) ;;
  response <~ server (processPayload f base64) ;;
  throw_if (notJson response) (Error "Server returned invalid response") ;;~
  data <~ parsed response ;;
  failed <~ (if negb (ok response) then inr true
             else success <~ runtime (Js.get data "success") ;;
                  inr (negb (Js.truthy success))) ;;
  (if failed
   then message <~ runtime (Js.get data "message") ;;
        inl (newError (Js.or message (JStr "Processing failed")))
   else inr tt) ;;~
  result <~ runtime (Js.get data "result") ;;
  throw_if (negb (Js.truthy result)) (Error "No result from API") ;;~
  inr data.

End Plain.

(** The browser receives the reply [rep] of the server as the response
    [resp]: the status is the reply's, and [res.json] sent the JSON
    content type with a body that parses back to the value it was given. *)
Definition delivers (rep : reply) (resp : fetch_response) : Prop :=
  status resp = code rep /\
  jsonShaped resp = true /\
  exists v, body rep = Json v /\ json resp = inr v.

(** [s.charAt(i)]: the empty string when [i] is out of range. *)
Definition charAt (s : string) (i : nat) : string :=
  match String.get i s with
  | Some c => String c EmptyString
  | None => EmptyString
  end.

Definition chars : string := "abcdefghijklmnopqrstuvwxyz0123456789".

(** The loop of [generateRandomFilename]: [n] more rounds from round [i];
    [draw i] is [Math.floor(Math.random() * chars.length)] of round [i]. *)
Fixpoint randomChars (draw : nat -> nat) (n i : nat) (random : string) : string :=
  match n with
  | O => random
  | S n' => randomChars draw n' (S i) (random ++ charAt chars (draw i))
  end.

(** [generateRandomFilename] (lines 344-351 and 658-665). *)
Definition generateRandomFilename (draw : nat -> nat) : string :=
  "result_" ++ randomChars draw 8 0 "" ++ ".png".

(** [handleDownload] (lines 321-342 and 630-655): the address the
    temporary link is clicked with, [None] when the function returns
    without doing anything. *)
Definition handleDownload (resultImageUrl : option string) (draw : nat -> nat)
    : option string :=
  if negb (Js.present resultImageUrl) then None
  else
    let randomName := generateRandomFilename draw in
    Some ("/api/download?url=" ++ encodeURIComponent (Js.orDefault resultImageUrl "")
          ++ "&filename=" ++ randomName).

(** Every character is one [encodeURIComponent] leaves alone. *)
Fixpoint allUnreserved (s : string) : bool :=
  match s with
  | EmptyString => true
  | String c s' => uriUnreserved c && allUnreserved s'
  end.

(** ** The file selection of the page

    The two copies agree on these handlers (lines 100-136 and 353-376;
    475-511 and 667-689).  The state is the script's variables and the
    properties of the page elements the handlers write; an element's
    [hidden] flag is the presence of the class [hidden] on it. *)

Record page : Type := {
  selectedFile : option file;
  resultImageUrl : option string;
  fileInput_value : string;
  previewImage_src : string;
  resultImage_src : string;
  uploadBox_hidden : bool;
  uploadBox_dragOver : bool;
  previewContainer_hidden : bool;
  uploadSection_hidden : bool;
  resultSection_hidden : bool;
  generateBtn_disabled : bool;
  errorText : string;
  errorMessage_hidden : bool
}.

(** [showError] *)
Definition showError (message : string) (s : page) : page :=
  {| selectedFile := selectedFile s;
     resultImageUrl := resultImageUrl s;
     fileInput_value := fileInput_value s;
     previewImage_src := previewImage_src s;
     resultImage_src := resultImage_src s;
     uploadBox_hidden := uploadBox_hidden s;
     uploadBox_dragOver := uploadBox_dragOver s;
     previewContainer_hidden := previewContainer_hidden s;
     uploadSection_hidden := uploadSection_hidden s;
     resultSection_hidden := resultSection_hidden s;
     generateBtn_disabled := generateBtn_disabled s;
     errorText := message;
     errorMessage_hidden := false |}.

(** [hideError] *)
Definition hideError (s : page) : page :=
  {| selectedFile := selectedFile s;
     resultImageUrl := resultImageUrl s;
     fileInput_value := fileInput_value s;
     previewImage_src := previewImage_src s;
     resultImage_src := resultImage_src s;
     uploadBox_hidden := uploadBox_hidden s;
     uploadBox_dragOver := uploadBox_dragOver s;
     previewContainer_hidden := previewContainer_hidden s;
     uploadSection_hidden := uploadSection_hidden s;
     resultSection_hidden := resultSection_hidden s;
     generateBtn_disabled := generateBtn_disabled s;
     errorText := errorText s;
     errorMessage_hidden := true |}.

(** [handleFile], up to the start of the read: the new state, and the file
    handed to [reader.readAsDataURL] if any. *)
Definition handleFile (f : option file) (s : page) : page * option file :=
  match f with
  | None => (s, None)
  | Some file =>
      if negb (startsWith (file_type file) "image/")
      then (showError "Please upload a valid image file" s, None)
      else if file_size file >? 10 * 1024 * 1024
      then (showError "File size must be less than 10MB" s, None)
      else ({| selectedFile := Some file;
               resultImageUrl := resultImageUrl s;
               fileInput_value := fileInput_value s;
               previewImage_src := previewImage_src s;
               resultImage_src := resultImage_src s;
               uploadBox_hidden := uploadBox_hidden s;
               uploadBox_dragOver := uploadBox_dragOver s;
               previewContainer_hidden := previewContainer_hidden s;
               uploadSection_hidden := uploadSection_hidden s;
               resultSection_hidden := resultSection_hidden s;
               generateBtn_disabled := generateBtn_disabled s;
               errorText := errorText s;
               errorMessage_hidden := errorMessage_hidden s |},
            Some file)
  end.

(** [reader.onload] of [handleFile] (lines 113-119). *)
Definition reader_onload (result : string) (s : page) : page :=
  hideError
    {| selectedFile := selectedFile s;
       resultImageUrl := resultImageUrl s;
       fileInput_value := fileInput_value s;
       previewImage_src := result;
       resultImage_src := resultImage_src s;
       uploadBox_hidden := true;
       uploadBox_dragOver := uploadBox_dragOver s;
       previewContainer_hidden := false;
       uploadSection_hidden := uploadSection_hidden s;
       resultSection_hidden := resultSection_hidden s;
       generateBtn_disabled := false;
       errorText := errorText s;
       errorMessage_hidden := errorMessage_hidden s |}.

(** [reader.onerror] of [handleFile] (line 121). *)
Definition reader_onerror (s : page) : page := showError "Failed to read file" s.

(** [handleRemoveImage] *)
Definition handleRemoveImage (s : page) : page :=
  hideError
    {| selectedFile := None;
       resultImageUrl := resultImageUrl s;
       fileInput_value := "";
       previewImage_src := "";
       resultImage_src := resultImage_src s;
       uploadBox_hidden := false;
       uploadBox_dragOver := uploadBox_dragOver s;
       previewContainer_hidden := true;
       uploadSection_hidden := uploadSection_hidden s;
       resultSection_hidden := resultSection_hidden s;
       generateBtn_disabled := true;
       errorText := errorText s;
       errorMessage_hidden := errorMessage_hidden s |}.

(** [handleReset] *)
Definition handleReset (s : page) : page :=
  hideError
    {| selectedFile := None;
       resultImageUrl := None;
       fileInput_value := "";
       previewImage_src := "";
       resultImage_src := "";
       uploadBox_hidden := false;
       uploadBox_dragOver := uploadBox_dragOver s;
       previewContainer_hidden := true;
       uploadSection_hidden := false;
       resultSection_hidden := true;
       generateBtn_disabled := true;
       errorText := errorText s;
       errorMessage_hidden := errorMessage_hidden s |}.

(** The [dragover], [dragleave] and [drop] listeners set and clear the
    class [drag-over] of the upload box (lines 79-92). *)
Definition setDragOver (v : bool) (s : page) : page :=
  {| selectedFile := selectedFile s;
     resultImageUrl := resultImageUrl s;
     fileInput_value := fileInput_value s;
     previewImage_src := previewImage_src s;
     resultImage_src := resultImage_src s;
     uploadBox_hidden := uploadBox_hidden s;
     uploadBox_dragOver := v;
     previewContainer_hidden := previewContainer_hidden s;
     uploadSection_hidden := uploadSection_hidden s;
     resultSection_hidden := resultSection_hidden s;
     generateBtn_disabled := generateBtn_disabled s;
     errorText := errorText s;
     errorMessage_hidden := errorMessage_hidden s |}.

(** What can happen to the file selection: the listeners of
    [initEventListeners] for the file input, the upload box, the remove
    and the reset button, and the two callbacks of a read, which may
    arrive at any later time. *)
Inductive page_event : Type :=
| Change (f : option file)
| DragOver
| DragLeave
| Drop (f : option file)
| Loaded (result : string)
| ReadFailed
| RemoveClick
| ResetClick.

Definition page_step (s : page) (ev : page_event) : page :=
  match ev with
  | Change f => fst (handleFile f s)
  | DragOver => setDragOver true s
  | DragLeave => setDragOver false s
  | Drop f => fst (handleFile f (setDragOver false s))
  | Loaded result => reader_onload result s
  | ReadFailed => reader_onerror s
  | RemoveClick => handleRemoveImage s
  | ResetClick => handleReset s
  end.

Definition page_run (s : page) (evs : list page_event) : page :=
  fold_left page_step evs s.

(** A file [handleFile] lets through. *)
Definition acceptable (f : file) : Prop :=
  startsWith (file_type f) "image/" = true /\ file_size f <= 10485760.

(** No file is selected, or an acceptable one. *)
Definition selection_ok (s : page) : Prop :=
  match selectedFile s with
  | None => True
  | Some f => acceptable f
  end.

(** The generate button is usable only beside a shown preview. *)
Definition button_ok (s : page) : Prop :=
  generateBtn_disabled s = false ->
  previewContainer_hidden s = false /\ uploadBox_hidden s = true.

Definition blank_page : page :=
  {| selectedFile := None;
     resultImageUrl := None;
     fileInput_value := "";
     previewImage_src := "";
     resultImage_src := "";
     uploadBox_hidden := false;
     uploadBox_dragOver := false;
     previewContainer_hidden := true;
     uploadSection_hidden := false;
     resultSection_hidden := true;
     generateBtn_disabled := true;
     errorText := "";
     errorMessage_hidden := true |}.

Definition big_file : file :=
  {| file_name := "big.png"; file_type := "image/png"; file_size := 10485761 |}.

Definition limit_file : file :=
  {| file_name := "limit.png"; file_type := "image/png"; file_size := 10485760 |}.

(** ** Further observations *)

(** A character that cannot end or split a query-string value: one that
    [encodeURIComponent] leaves alone, or the [%] of an escape. *)
Definition querySafe (c : ascii) : bool := uriUnreserved c || Ascii.eqb c "%".

Fixpoint allQuerySafe (s : string) : bool :=
  match s with
  | EmptyString => true
  | String c s' => querySafe c && allQuerySafe s'
  end.

(** The statuses [process] can answer with. *)
Definition processStatuses : list Z := [200; 400; 404; 429; 503; 500].

Definition upstream_refusal : fetch_response :=
  jsonResponse 200 (JObj [("success", JBool false);
                          ("message", JStr "Image link expired, upload again")]).

Definition numeric_result_fields : list (string * jsval) :=
  [("success", JBool true); ("result", JNum 42)].

Definition numeric_result : fetch_response := jsonResponse 200 (JObj numeric_result_fields).

Definition gone : fetch_response := plain 410 (Some "text/html") "Gone".

Definition cat_file : file :=
  {| file_name := "cat.png"; file_type := "image/png"; file_size := 5 |}.

Definition cat_data_url : string := "data:image/png;base64,aGVsbG8=".

(** The browser's view of a reply of the server. *)
Definition browserView (rep : reply) : fetch_response :=
  {| status := code rep;
     content_type := Some "application/json; charset=utf-8";
     text := "";
     buffer := [];
     json := match body rep with
             | Json v => inr v
             | Bytes _ => inl "Unexpected token"
             end |}.

Definition transformed_reply : reply :=
  {| code := 200; headers := [];
     body := Json (JObj [("success", JBool true);
                         ("result", JStr "https://cdn.example/out.png");
                         ("uploadedUrl", JStr "https://host.example/cat.png");
                         ("timestamp", JStr "T+1050");
                         ("timing",
                          JObj [("upload", JStr "10ms");
                                ("processing", JStr "10ms");
                                ("total", JStr "40ms")])]) |}.

Definition draw_sample (i : nat) : nat := (7 * i + 3) mod 36.

(** ** Base64, as a browser or [buf.toString('base64')] writes it

    The standard encoding with the alphabet [A-Z a-z 0-9 + /] and [=]
    padding; it is what [Buffer.from_base64] is measured against. *)

Module Base64.

(** The character of a 6-bit digit. *)
Definition digit (d : N) : ascii :=
  ascii_of_N (if d <? 26 then 65 + d
              else if d <? 52 then 71 + d
              else if d <? 62 then d - 4
              else if d =? 62 then 43 else 47)%N.

(** The four digits of three bytes. *)
Definition enc0 (x : N) : N := N.shiftr x 2.
Definition enc1 (x y : N) : N := N.lor (N.shiftl (N.land x 3) 4) (N.shiftr y 4).
Definition enc2 (y z : N) : N := N.lor (N.shiftl (N.land y 15) 2) (N.shiftr z 6).
Definition enc3 (z : N) : N := N.land z 63.

(** The digits of a byte sequence; a missing byte of the last group
    counts as zero and its digits of padding are left out. *)
Fixpoint digits (l : list Byte.byte) : list N :=
  match l with
  | x :: y :: z :: rest =>
      enc0 (Byte.to_N x) :: enc1 (Byte.to_N x) (Byte.to_N y) ::
      enc2 (Byte.to_N y) (Byte.to_N z) :: enc3 (Byte.to_N z) :: digits rest
  | [x; y] =>
      [enc0 (Byte.to_N x); enc1 (Byte.to_N x) (Byte.to_N y); enc2 (Byte.to_N y) 0]
  | [x] => [enc0 (Byte.to_N x); enc1 (Byte.to_N x) 0]
  | [] => []
  end.

(** The encoding: the characters of the digits, padded with [=] to a
    multiple of four. *)
Fixpoint encode (l : list Byte.byte) : string :=
  match l with
  | x :: y :: z :: rest =>
      String (digit (enc0 (Byte.to_N x)))
        (String (digit (enc1 (Byte.to_N x) (Byte.to_N y)))
           (String (digit (enc2 (Byte.to_N y) (Byte.to_N z)))
              (String (digit (enc3 (Byte.to_N z))) (encode rest))))
  | [x; y] =>
      String (digit (enc0 (Byte.to_N x)))
        (String (digit (enc1 (Byte.to_N x) (Byte.to_N y)))
           (String (digit (enc2 (Byte.to_N y) 0)) "="))
  | [x] =>
      String (digit (enc0 (Byte.to_N x)))
        (String (digit (enc1 (Byte.to_N x) 0)) "==")
  | [] => EmptyString
  end.

(** [p] holds of every number below [n]. *)
Fixpoint below (n : nat) (p : N -> bool) : bool :=
  match n with
  | O => true
  | S m => p (N.of_nat m) && below m p
  end.

End Base64.

(** * Properties *)

(** ** The runtime functions on sample inputs *)

Example includes_ex1 : includes "Too many requests" "Too many" = true.
Proof. reflexivity. Qed.

Example ofNumber_ex : (ofNumber 0, ofNumber 403, ofNumber (-5)) = ("0", "403", "-5").
Proof. reflexivity. Qed.

Example trim_ex : trim "  https://a b  " = "https://a b".
Proof. reflexivity. Qed.

Example encode_ex :
  encodeURIComponent "https://files.catbox.moe/a b.png" =
  "https%3A%2F%2Ffiles.catbox.moe%2Fa%20b.png".
Proof. reflexivity. Qed.

Example toString_ex :
  Js.toString (JArr [JNum 1; JNull; JStr "a"; JArr [JBool true; JNum (-2)]])
    = inr "1,,a,true,-2" /\
  Js.toString (JArr [JStr "a"; JObj [("toString", JNum 1)]])
    = inl "Cannot convert object to primitive value".
Proof. split; vm_compute; reflexivity. Qed.

Example numberToString_ex :
  map Js.numberToString
    [42; 100; -7; 9007199254740993; 1152921504606846976; 18446744073709551615;
     123456789012345680000; 999999999999999999999; 10 ^ 21; 15 * 10 ^ 20; 10 ^ 23;
     123456789012345678901234567890; - 10 ^ 21; 2 ^ 1024]
  = ["42"; "100"; "-7"; "9007199254740992"; "1152921504606847000";
     "18446744073709552000"; "123456789012345680000"; "1e+21"; "1e+21"; "1.5e+21";
     "1e+23"; "1.2345678901234568e+29"; "-1e+21"; "Infinity"].
Proof. vm_compute. reflexivity. Qed.

Example from_base64_ex1 :
  Buffer.from_base64 "aGVsbG8=" = list_byte_of_string "hello".
Proof. reflexivity. Qed.

Example from_base64_ex2 :
  Buffer.from_base64 "aG Vs#bG8" = list_byte_of_string "hello".
Proof. reflexivity. Qed.

Example from_base64_ex3 : Buffer.from_base64 "!!!!" = [].
Proof. reflexivity. Qed.

(** The scenario of a hosted [cat.png] and a transform answering with a
    result URL: one response, of status 200, carrying both URLs. *)
Example end_to_end :
  replies (run (process cat) (stub (inr host_ok) (inr transformed))) =
    [{| code := 200; headers := [];
        body := Json (JObj [("success", JBool true);
                            ("result", JStr "https://cdn.example/out.png");
                            ("uploadedUrl", JStr "https://host.example/cat.png");
                            ("timestamp", JStr "T+1050");
                            ("timing",
                             JObj [("upload", JStr "10ms");
                                   ("processing", JStr "10ms");
                                   ("total", JStr "40ms")])]) |}].
Proof. reflexivity. Qed.

(** ** Stepping through a handler *)

Section Steps.

Context {A B : Type}.
Variables (e : Env) (s : State).

Lemma bind_ret (a : A) (k : A -> M B) : bind (ret a) k e s = k a e s.
Proof. reflexivity. Qed.

Lemma bind_throw (m : string) (k : A -> M B) : bind (throw m) k e s = (Throw m, s).
Proof. reflexivity. Qed.

Lemma bind_bind {C} (m : M A) (f : A -> M B) (g : B -> M C) :
  bind (bind m f) g e s = bind m (fun a => bind (f a) g) e s.
Proof. unfold bind. destruct (m e s) as [[a|msg] s']; reflexivity. Qed.

Lemma bind_now (k : Z -> M B) :
  bind Date_now k e s =
  k (clock e (ticks s)) e
    {| ticks := S (ticks s); log := log s ++ [ENow (clock e (ticks s))];
       pending := pending s |}.
Proof. reflexivity. Qed.

Lemma bind_iso (k : string -> M B) :
  bind new_Date_toISOString k e s =
  k (toISOString e (clock e (ticks s))) e
    {| ticks := S (ticks s); log := log s ++ [ENow (clock e (ticks s))];
       pending := pending s |}.
Proof. reflexivity. Qed.

Lemma bind_fetch_ok (r : fetch_request) (resp : fetch_response) (k : fetch_response -> M B) :
  network e r = inr resp ->
  bind (fetch r) k e s =
  k resp e {| ticks := ticks s; log := log s ++ [EFetch r]; pending := pending s |}.
Proof. intros H. unfold bind, fetch. rewrite H. reflexivity. Qed.

Lemma bind_fetch_fail (r : fetch_request) (msg : string) (k : fetch_response -> M B) :
  network e r = inl msg ->
  bind (fetch r) k e s =
  (Throw msg, {| ticks := ticks s; log := log s ++ [EFetch r]; pending := pending s |}).
Proof. intros H. unfold bind, fetch. rewrite H. reflexivity. Qed.

Lemma bind_lift_ok (a : A) (k : A -> M B) : bind (lift (inr a)) k e s = k a e s.
Proof. reflexivity. Qed.

Lemma bind_lift_fail (m : string) (k : A -> M B) : bind (lift (inl m)) k e s = (Throw m, s).
Proof. reflexivity. Qed.

End Steps.

(** [throw new Error(v)]: the thrown message is the conversion of [v], or
    that of the error the conversion fails with. *)
Lemma bind_lift_throw {A} (r : string + string) (e : Env) (s : State) :
  bind (lift r) (fun text => @throw A text) e s =
  (Throw (match r with inl m => m | inr text => text end), s).
Proof. destruct r; reflexivity. Qed.

Lemma bind_lift_throw_bind {A B} (r : string + string) (k : A -> M B)
    (e : Env) (s : State) :
  bind (lift r) (fun text => bind (throw text) k) e s =
  (Throw (match r with inl m => m | inr text => text end), s).
Proof. destruct r; reflexivity. Qed.

Ltac exec_step :=
  first
    [ rewrite bind_lift_throw_bind
    | rewrite bind_lift_throw
    | rewrite bind_bind
    | rewrite bind_ret
    | rewrite bind_throw
    | rewrite bind_now
    | rewrite bind_iso
    | rewrite bind_lift_ok
    | rewrite bind_lift_fail
    | erewrite bind_fetch_ok by eassumption
    | erewrite bind_fetch_fail by eassumption ].

Ltac simp := cbn [ticks log pending app negb orb andb start].

Ltac exec := repeat (simp; exec_step); simp.

(** ** Strings *)

Lemma startsWith_split (s p : string) :
  startsWith s p = true -> exists rest, s = p ++ rest.
Proof.
  revert s. induction p as [|c p IH]; intros s H.
  - exists s. reflexivity.
  - destruct s as [|d s]; [discriminate|]. simpl in H.
    destruct (Ascii.eqb d c) eqn:E; [|discriminate].
    apply Ascii.eqb_eq in E. subst d.
    destruct (IH s H) as [rest ->]. exists rest. reflexivity.
Qed.

Lemma startsWith_truthy (s : string) (c : ascii) (p : string) :
  startsWith s (String c p) = true -> JsString.truthy s = true.
Proof. destruct s; [discriminate | reflexivity]. Qed.

Lemma trimEnd_cons (c : ascii) (s : string) :
  isWhiteSpace c = false -> trimEnd (String c s) = String c (trimEnd s).
Proof. intros H. simpl. rewrite H. destruct (trimEnd s); reflexivity. Qed.

(** Trimming keeps the [https://] prefix, hence the [http] one. *)
Lemma trim_keeps_scheme (s : string) :
  startsWith s "https://" = true -> startsWith (trim s) "http" = true.
Proof.
  intros H. apply startsWith_split in H. destruct H as [rest ->].
  unfold trim. cbn [append].
  replace (trimStart (String "h" (String "t" (String "t" (String "p"
             (String "s" (String ":" (String "/" (String "/" rest)))))))))
    with (String "h" (String "t" (String "t" (String "p"
             (String "s" (String ":" (String "/" (String "/" rest))))))))
    by reflexivity.
  rewrite !trimEnd_cons by reflexivity. reflexivity.
Qed.

Lemma ofNumber_numeric (n : Z) : allNumeric (ofNumber n) = true.
Proof.
  assert (U : forall u, allNumeric (NilEmpty.string_of_uint u) = true)
    by (induction u; simpl; auto).
  assert (V : forall u, allNumeric (NilZero.string_of_uint u) = true)
    by (destruct u; try reflexivity; apply (U _)).
  unfold ofNumber. destruct (Z.to_int n); simpl; apply V.
Qed.

(** A printed integer contains no occurrence of a word that starts with
    another character. *)
Lemma includes_numeric (d tail : string) (k0 : ascii) (k : string) :
  allNumeric d = true -> numericChar k0 = false ->
  includes (d ++ tail) (String k0 k) = includes tail (String k0 k).
Proof.
  intros Hd Hk. induction d as [|c d IH]; [reflexivity|].
  simpl in Hd. apply andb_true_iff in Hd. destruct Hd as [Hc Hd].
  cbn [append includes startsWith].
  assert (E : Ascii.eqb c k0 = false).
  { apply Ascii.eqb_neq. intros ->. congruence. }
  rewrite E. cbn [orb]. rewrite (IH Hd). reflexivity.
Qed.

(** ** The status derived from a message *)

Lemma statusCode_cases (m : string) :
  statusCode m = 400 \/ statusCode m = 404 \/ statusCode m = 429 \/
  statusCode m = 503 \/ statusCode m = 500.
Proof.
  unfold statusCode.
  repeat match goal with |- context [if ?c then _ else _] => destruct c end; auto.
Qed.

Lemma statusCode_api_error (d : string) :
  allNumeric d = true -> statusCode ("API error (status " ++ d ++ ")") = 500.
Proof.
  intros Hd. unfold statusCode.
  assert (F : forall k0 k, numericChar k0 = false ->
            includes (d ++ ")") (String k0 k) = includes ")" (String k0 k))
    by (intros; apply includes_numeric; assumption).
  cbn [append includes startsWith Ascii.eqb Bool.eqb orb andb].
  rewrite !F by reflexivity. reflexivity.
Qed.

Lemma statusCode_apiErrorMessage (st : Z) :
  statusCode (apiErrorMessage st) =
  if st =? 400 then 400 else if st =? 404 then 404
  else if st =? 429 then 429 else 500.
Proof.
  unfold apiErrorMessage.
  destruct (st =? 400); [reflexivity|].
  destruct (st =? 404); [reflexivity|].
  destruct (st =? 429); [reflexivity|].
  destruct (st >=? 500); [reflexivity|].
  apply statusCode_api_error, ofNumber_numeric.
Qed.

(** ** [POST /api/process]: the transform call's status *)

(** C1. When the transform call answers with a non-2xx status, the handler
    writes exactly one response, whose status follows the upstream status:
    400 gives 400, 404 gives 404, 429 gives 429, a status of 500 or more
    gives 500, and every other non-2xx status gives 500. *)
Theorem transform_status_mapping (e : Env) (b : process_body) (up r : fetch_response) :
  reaches_transform e b up r ->
  ok r = false ->
  let codes := map code (replies (run (process b) e)) in
  (status r = 400 -> codes = [400]) /\
  (status r = 404 -> codes = [404]) /\
  (status r = 429 -> codes = [429]) /\
  (500 <= status r -> codes = [500]) /\
  (status r <> 400 -> status r <> 404 -> status r <> 429 -> codes = [500]).
Proof.
  intros (Hi & Hu & Hok & Hs & Hr) Hnok codes.
  assert (Ht : JsString.truthy (text up) = true) by (eapply startsWith_truthy; eassumption).
  assert (E : codes = [if status r =? 400 then 400 else if status r =? 404 then 404
                       else if status r =? 429 then 429 else 500]).
  { subst codes. rewrite <- statusCode_apiErrorMessage.
    unfold run, process, try_catch, process_try.
    rewrite Hi. exec. rewrite Hok. exec. rewrite Ht, Hs. exec.
    rewrite Hnok. exec. reflexivity. }
  rewrite E. repeat split.
  - intros ->. reflexivity.
  - intros ->. reflexivity.
  - intros ->. reflexivity.
  - intros H.
    destruct (Z.eqb_spec (status r) 400); [lia|].
    destruct (Z.eqb_spec (status r) 404); [lia|].
    destruct (Z.eqb_spec (status r) 429); [lia|]. reflexivity.
  - intros H1 H2 H3.
    destruct (Z.eqb_spec (status r) 400); [contradiction|].
    destruct (Z.eqb_spec (status r) 404); [contradiction|].
    destruct (Z.eqb_spec (status r) 429); [contradiction|]. reflexivity.
Qed.

Lemma transform_status_mapping_witness :
  reaches_transform (stub (inr host_ok) (inr forbidden)) cat host_ok forbidden /\
  ok forbidden = false /\
  map code (replies (run (process cat) (stub (inr host_ok) (inr forbidden)))) = [500].
Proof.
  assert (H : reaches_transform (stub (inr host_ok) (inr forbidden)) cat host_ok forbidden)
    by (repeat split; reflexivity).
  assert (Hn : ok forbidden = false) by reflexivity.
  refine (conj H (conj Hn _)).
  refine (proj2 (proj2 (proj2 (proj2 (transform_status_mapping _ _ _ _ H Hn)))) _ _ _);
    discriminate.
Defined.

(** ** [POST /api/process]: the missing-image guard *)

(** C5. A request whose [image] field is absent or empty gets status 400
    with the body [{success: false, message: 'No image data provided'}],
    and that response is the only effect of the run: no outbound call is
    made. *)
Theorem missing_image_rejected (e : Env) (b : process_body) :
  image b = None \/ image b = Some "" ->
  run (process b) e =
    [ESend {| code := 400; headers := [];
              body := Json (JObj [("success", JBool false);
                                  ("message", JStr "No image data provided")]) |}]
  /\ fetches (run (process b) e) = [].
Proof.
  intros H.
  assert (E : run (process b) e =
    [ESend {| code := 400; headers := [];
              body := Json (JObj [("success", JBool false);
                                  ("message", JStr "No image data provided")]) |}]).
  { unfold run, process, try_catch, process_try.
    destruct H as [-> | ->]; reflexivity. }
  rewrite E. split; reflexivity.
Qed.

Lemma missing_image_rejected_witness :
  image {| image := Some ""; filename := Some "cat.png"; mimetype := None |} = Some "" /\
  fetches (run (process {| image := Some ""; filename := Some "cat.png"; mimetype := None |})
             (stub (inr host_ok) (inr no_result))) = [].
Proof.
  split; [reflexivity|].
  apply (missing_image_rejected (stub (inr host_ok) (inr no_result))
           {| image := Some ""; filename := Some "cat.png"; mimetype := None |}
           (or_intror eq_refl)).
Defined.

(** ** [GET /api/download]: the missing-url guard *)

(** C9. A download request without a [url] query parameter (or with an
    empty one) gets status 400 with the body
    [{success: false, message: 'Image URL is required'}], and that response
    is the only effect of the run: nothing is fetched. *)
Theorem missing_url_rejected (e : Env) (q : download_query) :
  query_url q = None \/ query_url q = Some "" ->
  run (download q) e =
    [ESend {| code := 400; headers := [];
              body := Json (JObj [("success", JBool false);
                                  ("message", JStr "Image URL is required")]) |}]
  /\ fetches (run (download q) e) = [].
Proof.
  intros H.
  assert (E : run (download q) e =
    [ESend {| code := 400; headers := [];
              body := Json (JObj [("success", JBool false);
                                  ("message", JStr "Image URL is required")]) |}]).
  { unfold run, download, try_catch, download_try.
    destruct H as [H | H]; rewrite H; reflexivity. }
  rewrite E. split; reflexivity.
Qed.

Lemma missing_url_rejected_witness :
  query_url {| query_url := None; query_filename := Some "a.png" |} = None /\
  fetches (run (download {| query_url := None; query_filename := Some "a.png" |})
             (stub (inr host_ok) (inr jpeg_file))) = [].
Proof.
  split; [reflexivity|].
  apply (missing_url_rejected (stub (inr host_ok) (inr jpeg_file))
           {| query_url := None; query_filename := Some "a.png" |}
           (or_introl eq_refl)).
Defined.

(** ** [GET /api/download]: the relayed file *)


Lemma legalHeader_app (a b : string) :
  legalHeader (a ++ b) = legalHeader a && legalHeader b.
Proof.
  induction a as [|c a IH]; [reflexivity|].
  cbn [append legalHeader]. rewrite IH. apply andb_assoc.
Qed.



(** The disposition is legal exactly when the file name in it is. *)
Lemma disposition_legal (name : string) :
  legalValue (JStr ("attachment; filename=" ++ dquote ++ name ++ dquote)) = legalHeader name.
Proof.
  cbn [legalValue]. rewrite !legalHeader_app.
  replace (legalHeader "attachment; filename=") with true by reflexivity.
  replace (legalHeader dquote) with true by reflexivity.
  rewrite andb_true_r. reflexivity.
Qed.

Lemma bind_setHeader_received {B} (name : string) (v : jsval) (k : unit -> M B) e s :
  bind (res_setHeader_received name v) k e s =
  k tt e {| ticks := ticks s; log := log s; pending := pending s ++ [(name, v)] |}.
Proof. reflexivity. Qed.

Lemma bind_setHeader_ok {B} (name : string) (v : jsval) (k : unit -> M B) e s :
  legalValue v = true ->
  bind (res_setHeader name v) k e s =
  k tt e {| ticks := ticks s; log := log s; pending := pending s ++ [(name, v)] |}.
Proof. intros H. unfold bind, res_setHeader. rewrite H. reflexivity. Qed.


(** Sets the four headers of the relay, given the file name is legal. *)
Ltac set_headers H :=
  rewrite bind_setHeader_received; simp;
  rewrite bind_setHeader_ok by (rewrite disposition_legal; exact H); simp;
  rewrite bind_setHeader_ok by reflexivity; simp;
  rewrite bind_setHeader_ok by reflexivity; simp.



(** ** [POST /api/process]: failures of the network *)

Lemma includes_unfold (s k : string) :
  includes s k =
  startsWith s k || match s with EmptyString => false | String _ s' => includes s' k end.
Proof. destruct s; reflexivity. Qed.

Lemma startsWith_append (k s : string) : startsWith (k ++ s) k = true.
Proof.
  induction k as [|c k IH]; [reflexivity|].
  simpl. rewrite Ascii.eqb_refl. apply IH.
Qed.

Lemma includes_intro (pre k post : string) : includes (pre ++ k ++ post) k = true.
Proof.
  induction pre as [|c pre IH].
  - cbn [append]. rewrite includes_unfold, startsWith_append. reflexivity.
  - cbn [append includes]. rewrite IH. apply orb_true_r.
Qed.

Lemma includes_split (s k : string) :
  includes s k = true -> exists pre post, s = pre ++ k ++ post.
Proof.
  induction s as [|c s IH]; intros H.
  - simpl in H. rewrite orb_false_r in H.
    destruct (startsWith_split _ _ H) as [post ->]. exists "", post. reflexivity.
  - cbn [includes] in H. apply orb_true_iff in H. destruct H as [H | H].
    + destruct (startsWith_split _ _ H) as [post ->]. exists "", post. reflexivity.
    + destruct (IH H) as (pre & post & ->). exists (String c pre), post. reflexivity.
Qed.

Lemma append_assoc' (a b c : string) : (a ++ b) ++ c = a ++ b ++ c.
Proof. induction a as [|x a IH]; simpl; [reflexivity | now rewrite IH]. Qed.

(** A message that mentions [unreachable] mentions [reach]. *)
Lemma includes_unreachable (m : string) :
  includes m "unreachable" = true -> includes m "reach" = true.
Proof.
  intros H. destruct (includes_split _ _ H) as (pre & post & ->).
  change (pre ++ "unreachable" ++ post) with (pre ++ "un" ++ "reach" ++ "able" ++ post).
  rewrite <- append_assoc'. apply includes_intro.
Qed.

Lemma jsonShaped_true (r : fetch_response) :
  jsonShaped r = true ->
  exists ct, content_type r = Some ct /\ JsString.truthy ct = true /\
             includes ct "application/json" = true.
Proof.
  unfold jsonShaped. destruct (content_type r) as [ct|]; [|discriminate].
  intros H. exists ct. repeat split; [|exact H].
  destruct ct; [discriminate | reflexivity].
Qed.

(** C6, as the handler has it.  When the hosting upload or the transform
    call rejects at the network level with an error of message [m], the
    handler writes exactly one response; its status is derived from the
    text of [m] alone and its message is [m] (or the fallback when [m] is
    empty).  The status is 503 exactly when [m] contains [reach] and none
    of [Invalid], [unsupported], [not found], [expired], [Too many]. *)
Theorem network_failure_status (e : Env) (b : process_body) (m : string) :
  Js.present (image b) = true ->
  network e (uploadRequest b (Buffer.from_base64 (Js.orDefault (image b) ""))) = inl m \/
  (exists up,
     network e (uploadRequest b (Buffer.from_base64 (Js.orDefault (image b) ""))) = inr up /\
     ok up = true /\ startsWith (text up) "https://" = true /\
     network e (apiRequest (text up)) = inl m) ->
  (exists iso,
     replies (run (process b) e) =
       [{| code := statusCode m; headers := [];
           body := Json (errorBody (if JsString.truthy m then m
                                    else "Failed to process image") iso) |}]) /\
  (statusCode m = 503 <->
   includes m "reach" = true /\
   includes m "Invalid" = false /\ includes m "unsupported" = false /\
   includes m "not found" = false /\ includes m "expired" = false /\
   includes m "Too many" = false).
Proof.
  intros Hi H. split.
  - destruct H as [Hu | (up & Hu & Hok & Hs & Hr)].
    + eexists. unfold run, process, try_catch, process_try.
      rewrite Hi. exec. reflexivity.
    + assert (Ht : JsString.truthy (text up) = true)
        by (eapply startsWith_truthy; eassumption).
      eexists. unfold run, process, try_catch, process_try.
      rewrite Hi. exec. rewrite Hok. exec. rewrite Ht, Hs. exec. reflexivity.
  - unfold statusCode. split.
    + destruct (includes m "Invalid"), (includes m "unsupported"); cbn [orb];
        try discriminate.
      destruct (includes m "not found"), (includes m "expired"); cbn [orb];
        try discriminate.
      destruct (includes m "Too many"); try discriminate.
      destruct (includes m "reach") eqn:R; [intros _; repeat split|].
      destruct (includes m "unreachable") eqn:U; cbn [orb]; [|discriminate].
      apply includes_unreachable in U. congruence.
    + intros (-> & -> & -> & -> & -> & ->). reflexivity.
Qed.

Lemma network_failure_status_witness :
  Js.present (image cat) = true /\
  network (stub (inl "Cannot reach host") (inr no_result))
    (uploadRequest cat (Buffer.from_base64 (Js.orDefault (image cat) "")))
    = inl "Cannot reach host" /\
  exists iso,
    replies (run (process cat) (stub (inl "Cannot reach host") (inr no_result))) =
      [{| code := 503; headers := [];
          body := Json (errorBody "Cannot reach host" iso) |}].
Proof.
  split; [reflexivity|]. split; [reflexivity|].
  exact (proj1 (network_failure_status
                  (stub (inl "Cannot reach host") (inr no_result)) cat
                  "Cannot reach host" eq_refl (or_introl eq_refl))).
Defined.

(** C6 as stated fails: a DNS failure of the hosting upload, reported by
    the HTTP client as [request to ... failed, reason: getaddrinfo
    ENOTFOUND catbox.moe], is answered with status 500, not 503. *)
Lemma network_failure_not_503 :
  network (stub (inl enotfound) (inr no_result))
    (uploadRequest cat (Buffer.from_base64 "aGVsbG8=")) = inl enotfound /\
  map code (replies (run (process cat) (stub (inl enotfound) (inr no_result)))) = [500] /\
  map code (replies (run (process cat) (stub (inl enotfound) (inr no_result)))) <> [503].
Proof.
  split; [reflexivity|]. split; [reflexivity|].
  vm_compute. discriminate.
Qed.

(** ** [POST /api/process]: the answer of the transform call *)

(** C2, as the handler has it.  After a 2xx transform response: a content
    type that is absent or lacks [application/json] is answered with
    status 500 and the message [API returned invalid response format]; a
    parsed body with a truthy [success] whose [result] is missing (falsy)
    or a string that does not start with [http] is answered with status
    400 and the message [Invalid result from API]. *)
Theorem bad_response_status (e : Env) (b : process_body) (up r : fetch_response) :
  reaches_transform e b up r ->
  ok r = true ->
  (jsonShaped r = false ->
   exists iso,
     replies (run (process b) e) =
       [{| code := 500; headers := [];
           body := Json (errorBody "API returned invalid response format" iso) |}]) /\
  (forall fields,
     jsonShaped r = true ->
     json r = inr (JObj fields) ->
     Js.truthy (Js.lookup "success" fields) = true ->
     Js.truthy (Js.lookup "result" fields) = false \/
     (exists s, Js.lookup "result" fields = JStr s /\ startsWith s "http" = false) ->
     exists iso,
       replies (run (process b) e) =
         [{| code := 400; headers := [];
             body := Json (errorBody "Invalid result from API" iso) |}]).
Proof.
  intros (Hi & Hu & Hok & Hs & Hr) Hrok.
  assert (Ht : JsString.truthy (text up) = true) by (eapply startsWith_truthy; eassumption).
  split.
  - intros Hj. eexists. unfold run, process, try_catch, process_try.
    rewrite Hi. exec. rewrite Hok. exec. rewrite Ht, Hs. exec. rewrite Hrok. exec.
    unfold jsonShaped in Hj. destruct (content_type r) as [ct|].
    + rewrite Hj, orb_true_r. exec. reflexivity.
    + exec. reflexivity.
  - intros fields Hj Hd Hsucc Hres.
    destruct (jsonShaped_true _ Hj) as (ct & Hct & Htc & Hinc).
    eexists. unfold run, process, try_catch, process_try.
    rewrite Hi. exec. rewrite Hok. exec. rewrite Ht, Hs. exec. rewrite Hrok. exec.
    rewrite Hct, Htc, Hinc. exec. rewrite Hd. exec.
    cbn [Js.get]. exec. rewrite Hsucc. exec.
    destruct Hres as [Hf | (s & Hs' & Hh)].
    + rewrite Hf. exec. reflexivity.
    + rewrite Hs'. destruct (Js.truthy (JStr s)); exec.
      * cbn [Js.callStartsWith]. exec. rewrite Hh. exec. reflexivity.
      * reflexivity.
Qed.

Lemma bad_response_status_witness :
  reaches_transform (stub (inr host_ok) (inr no_result)) cat host_ok no_result /\
  ok no_result = true /\
  exists iso,
    replies (run (process cat) (stub (inr host_ok) (inr no_result))) =
      [{| code := 400; headers := [];
          body := Json (errorBody "Invalid result from API" iso) |}].
Proof.
  assert (H : reaches_transform (stub (inr host_ok) (inr no_result)) cat host_ok no_result)
    by (repeat split; reflexivity).
  refine (conj H (conj eq_refl _)).
  exact (proj2 (bad_response_status _ _ _ _ H eq_refl)
           [("success", JBool true)] eq_refl eq_refl eq_refl (or_introl eq_refl)).
Defined.

(** C2 as stated fails: a parsed transform body without a [result] is
    answered with status 400, not 500. *)
Lemma invalid_result_not_500 :
  reaches_transform (stub (inr host_ok) (inr no_result)) cat host_ok no_result /\
  ok no_result = true /\
  json no_result = inr (JObj [("success", JBool true)]) /\
  Js.get (JObj [("success", JBool true)]) "result" = inr JUndefined /\
  map code (replies (run (process cat) (stub (inr host_ok) (inr no_result)))) = [400] /\
  map code (replies (run (process cat) (stub (inr host_ok) (inr no_result)))) <> [500].
Proof.
  split; [repeat split; reflexivity|].
  repeat (split; [reflexivity|]). vm_compute. discriminate.
Qed.

(** ** [POST /api/process]: the timing of a successful run *)

(** C7, as the handler has it.  A successful run reads the clock at [t0]
    (before the upload), [t1] (after it), [t2] and [t3] (around the
    transform call) and [t4] (before the result is assembled).  The timing
    object holds [upload = (t1 - t0)ms] and [total = (t4 - t0)ms]; its
    [processing] is the [responseTime] of the transform body when that is
    truthy, and [(t3 - t2)ms] otherwise. *)
Theorem timing_fields (e : Env) (b : process_body) (up r : fetch_response)
    (fields : list (string * jsval)) (result : string) :
  reaches_transform e b up r ->
  transform_succeeds r fields result ->
  let t0 := clock e 0 in
  let t1 := clock e 1 in
  let t2 := clock e 2 in
  let t3 := clock e 3 in
  let t4 := clock e 4 in
  exists (stamp : list event) (timestamp : jsval),
    run (process b) e =
      ENow t0 ::
      EFetch (uploadRequest b (Buffer.from_base64 (Js.orDefault (image b) ""))) ::
      ENow t1 :: ENow t2 :: EFetch (apiRequest (text up)) :: ENow t3 :: ENow t4 ::
      stamp ++
      [ESend
         {| code := 200; headers := [];
            body :=
              Json (JObj
                [("success", JBool true);
                 ("result", JStr result);
                 ("uploadedUrl", JStr (trim (text up)));
                 ("timestamp", timestamp);
                 ("timing",
                  JObj [("upload", JStr (ofNumber (t1 - t0) ++ "ms"));
                        ("processing",
                         if Js.truthy (Js.lookup "responseTime" fields)
                         then Js.lookup "responseTime" fields
                         else JStr (ofNumber (t3 - t2) ++ "ms"));
                        ("total", JStr (ofNumber (t4 - t0) ++ "ms"))])]) |}] /\
    (if Js.truthy (Js.lookup "timestamp" fields)
     then stamp = [] /\ timestamp = Js.lookup "timestamp" fields
     else stamp = [ENow (clock e 5)] /\
          timestamp = JStr (toISOString e (clock e 5))).
Proof.
  intros (Hi & Hu & Hok & Hs & Hr) (Hrok & Hj & Hd & Hsucc & Hres & Hh) t0 t1 t2 t3 t4.
  assert (Ht : JsString.truthy (text up) = true) by (eapply startsWith_truthy; eassumption).
  assert (Hrt : Js.truthy (JStr result) = true)
    by (simpl; eapply startsWith_truthy; eassumption).
  destruct (jsonShaped_true _ Hj) as (ct & Hct & Htc & Hinc).
  destruct (Js.truthy (Js.lookup "timestamp" fields)) eqn:Hts.
  - exists [], (Js.lookup "timestamp" fields). split; [|split; reflexivity].
    unfold run, process, try_catch, process_try.
    rewrite Hi. exec. rewrite Hok. exec. rewrite Ht, Hs. exec. rewrite Hrok. exec.
    rewrite Hct, Htc, Hinc. exec. rewrite Hd. exec.
    cbn [Js.get]. exec. rewrite Hsucc. exec. rewrite Hres, Hrt. exec.
    cbn [Js.callStartsWith]. exec. rewrite Hh. exec. rewrite Hts. exec.
    reflexivity.
  - exists [ENow (clock e 5)], (JStr (toISOString e (clock e 5))).
    split; [|split; reflexivity].
    unfold run, process, try_catch, process_try.
    rewrite Hi. exec. rewrite Hok. exec. rewrite Ht, Hs. exec. rewrite Hrok. exec.
    rewrite Hct, Htc, Hinc. exec. rewrite Hd. exec.
    cbn [Js.get]. exec. rewrite Hsucc. exec. rewrite Hres, Hrt. exec.
    cbn [Js.callStartsWith]. exec. rewrite Hh. exec. rewrite Hts. exec.
    reflexivity.
Qed.

Lemma timing_fields_witness :
  reaches_transform (stub (inr host_ok) (inr transformed)) cat host_ok transformed /\
  transform_succeeds transformed transformed_fields "https://cdn.example/out.png" /\
  map (timing "upload") (replies (run (process cat) (stub (inr host_ok) (inr transformed))))
    = [JStr "10ms"] /\
  map (timing "processing") (replies (run (process cat) (stub (inr host_ok) (inr transformed))))
    = [JStr "10ms"] /\
  map (timing "total") (replies (run (process cat) (stub (inr host_ok) (inr transformed))))
    = [JStr "40ms"].
Proof.
  assert (H : reaches_transform (stub (inr host_ok) (inr transformed)) cat host_ok transformed)
    by (repeat split; reflexivity).
  assert (T : transform_succeeds transformed transformed_fields "https://cdn.example/out.png")
    by (repeat split; reflexivity).
  refine (conj H (conj T _)).
  destruct (timing_fields _ _ _ _ _ _ H T) as (stamp & ts & Hrun & Hst).
  simpl in Hst. destruct Hst as [-> ->].
  rewrite Hrun. repeat split; reflexivity.
Defined.

(** C7 as stated fails: when the transform body carries its own
    [responseTime], the [processing] field is that value and not the time
    measured around the call (here ten milliseconds). *)
Lemma processing_not_measured :
  exists pre rep,
    run (process cat) (stub (inr host_ok) (inr self_timed)) =
      (pre ++ [ENow 1020; EFetch (apiRequest "https://host.example/cat.png");
               ENow 1030; ENow 1040; ENow 1050; ESend rep])%list /\
    code rep = 200 /\
    timing "processing" rep = JStr "1.2s" /\
    timing "processing" rep <> JStr (ofNumber (1030 - 1020) ++ "ms").
Proof.
  eexists [_; _; _], _. split; [reflexivity|].
  split; [reflexivity|]. split; [reflexivity|]. vm_compute. discriminate.
Qed.

(** ** [POST /api/process]: every run *)

(** Closes a branch of [process] that ends in the [catch] block. *)
Ltac failed :=
  exec; cbn [Js.get Js.callStartsWith]; exec;
  do 2 eexists; split; [reflexivity|]; split; [reflexivity|];
  left; do 2 eexists; reflexivity.

(** The two shapes of a response of [process] once the image is present: a
    [ProcessError] whose status is derived from the thrown message, or the
    [ProcessResult] of a run whose upload and transform both succeeded. *)
Lemma process_outcome (e : Env) (b : process_body) :
  Js.present (image b) = true ->
  exists (rest : list event) (rep : reply),
    run (process b) e =
      ENow (clock e 0) ::
      EFetch (uploadRequest b (Buffer.from_base64 (Js.orDefault (image b) ""))) :: rest /\
    replies rest = [rep] /\
    ((exists m iso,
        rep = {| code := statusCode m; headers := [];
                 body := Json (errorBody (if JsString.truthy m then m
                                          else "Failed to process image") iso) |}) \/
     (exists up r fields result timestamp times,
        reaches_transform e b up r /\
        transform_succeeds r fields result /\
        rep = {| code := 200; headers := [];
                 body := Json (JObj [("success", JBool true);
                                     ("result", JStr result);
                                     ("uploadedUrl", JStr (trim (text up)));
                                     ("timestamp", timestamp);
                                     ("timing", times)]) |})).
Proof.
  intros Hi.
  unfold run, process, try_catch, process_try. rewrite Hi.
  destruct (network e (uploadRequest b (Buffer.from_base64 (Js.orDefault (image b) ""))))
    as [m|up] eqn:Hu.
  { failed. }
  exec.
  destruct (ok up) eqn:Hok; [|failed].
  exec.
  destruct (startsWith (text up) "https://") eqn:Hs;
    [|rewrite orb_true_r; failed].
  assert (Ht : JsString.truthy (text up) = true) by (eapply startsWith_truthy; eassumption).
  rewrite Ht.
  destruct (network e (apiRequest (text up))) as [m|r] eqn:Hr; [failed|].
  exec.
  destruct (ok r) eqn:Hrok; [|failed].
  exec.
  destruct (content_type r) as [ct|] eqn:Hct; [|failed].
  destruct (includes ct "application/json") eqn:Hinc;
    [|rewrite orb_true_r; failed].
  assert (Htc : JsString.truthy ct = true) by (destruct ct; [discriminate | reflexivity]).
  rewrite Htc.
  destruct (json r) as [m|data] eqn:Hd; [failed|].
  destruct data as [| |x|n|x|items|fields]; try failed.
  exec. cbn [Js.get]. exec.
  destruct (Js.truthy (Js.lookup "success" fields)) eqn:Hsucc; [|failed].
  exec.
  destruct (Js.truthy (Js.lookup "result" fields)) eqn:Hrt; [|failed].
  exec.
  destruct (Js.lookup "result" fields) as [| |x|n|result|items|fs] eqn:Hres; try failed.
  cbn [Js.callStartsWith]. exec.
  destruct (startsWith result "http") eqn:Hh; [|failed].
  exec.
  assert (R : reaches_transform e b up r) by (repeat split; assumption).
  assert (T : transform_succeeds r fields result).
  { repeat split; try assumption. unfold jsonShaped. rewrite Hct. exact Hinc. }
  destruct (Js.truthy (Js.lookup "timestamp" fields)); exec;
    (do 2 eexists; split; [reflexivity|]; split; [reflexivity|];
     right; exists up, r, fields, result; do 2 eexists;
     split; [exact R|]; split; [exact T|]; reflexivity).
Qed.

Lemma statusCode_not_200 (m : string) : statusCode m <> 200.
Proof.
  destruct (statusCode_cases m) as [H | [H | [H | [H | H]]]]; rewrite H; discriminate.
Qed.

Lemma https_is_http (s : string) :
  startsWith s "https://" = true -> startsWith s "http" = true.
Proof.
  intros H. destruct (startsWith_split _ _ H) as [rest ->]. reflexivity.
Qed.

(** C4. Every run of [process] writes exactly one response.  When its
    status is 200, the hosting upload and the transform call both
    succeeded, its [result] is the transform's [result] string, its
    [uploadedUrl] is the trimmed text of the hosting response, and both
    start with [http].  When its status is not 200, its body is an error
    ([success: false] and a message).  So a hosting response whose text
    does not start with [http], or a transform body whose [result] is not
    a string starting with [http], never gets status 200. *)
Theorem success_urls_have_scheme (e : Env) (b : process_body) :
  exists rep : reply,
    replies (run (process b) e) = [rep] /\
    (code rep = 200 ->
     exists up r fields result timestamp times,
       reaches_transform e b up r /\
       json r = inr (JObj fields) /\
       Js.lookup "result" fields = JStr result /\
       body rep = Json (JObj [("success", JBool true);
                              ("result", JStr result);
                              ("uploadedUrl", JStr (trim (text up)));
                              ("timestamp", timestamp);
                              ("timing", times)]) /\
       startsWith result "http" = true /\
       startsWith (trim (text up)) "http" = true) /\
    (code rep <> 200 ->
     exists m others,
       body rep = Json (JObj (("success", JBool false) :: ("message", JStr m) :: others))) /\
    (forall up,
       network e (uploadRequest b (Buffer.from_base64 (Js.orDefault (image b) ""))) = inr up ->
       startsWith (text up) "http" = false ->
       code rep <> 200) /\
    (forall up r fields,
       reaches_transform e b up r ->
       json r = inr (JObj fields) ->
       (forall s, Js.lookup "result" fields = JStr s -> startsWith s "http" = false) ->
       code rep <> 200).
Proof.
  destruct (Js.present (image b)) eqn:Hi.
  - destruct (process_outcome e b Hi) as (rest & rep & Hrun & Hrep & Hcase).
    exists rep. split; [rewrite Hrun; exact Hrep|].
    destruct Hcase as [(m & iso & ->) | (up & r & fields & result & ts & tm & R & T & ->)].
    + pose proof (statusCode_not_200 m) as Hm. cbn [code body].
      split; [intros H; contradiction|].
      split; [intros _; do 2 eexists; reflexivity|].
      split; intros; exact Hm.
    + destruct R as (Hp & Hu & Hok & Hs & Hr).
      destruct T as (Hrok & Hj & Hd & Hsucc & Hres & Hh).
      cbn [code body]. split; [|split; [|split]].
      * intros _. exists up, r, fields, result, ts, tm.
        split; [repeat split; assumption|].
        repeat split; try assumption; try reflexivity.
        apply trim_keeps_scheme, Hs.
      * intros H. contradiction.
      * intros up' Hu' Hbad. rewrite Hu in Hu'. injection Hu' as <-.
        apply https_is_http in Hs. congruence.
      * intros up' r' fields' (_ & Hu' & _ & _ & Hr') Hd' Hbad.
        rewrite Hu in Hu'. injection Hu' as <-.
        rewrite Hr in Hr'. injection Hr' as <-.
        rewrite Hd in Hd'. injection Hd' as <-.
        specialize (Hbad _ Hres). congruence.
  - eexists. split.
    + unfold run, process, try_catch, process_try. rewrite Hi. reflexivity.
    + cbn [code body]. split; [discriminate|].
      split; [intros _; do 2 eexists; reflexivity|].
      split; intros; discriminate.
Qed.

(** ** [POST /api/process]: a failed upload *)

(** C3. When the hosting upload fails (the call rejects with message
    [thrown]; or it answers with a non-2xx status, which throws [Failed to
    upload image to hosting]; or its body does not start with [https://],
    which throws [Invalid URL from image hosting]), the upload is the only
    outbound call of the run, the transform call is not made, and exactly
    one response is written: the error derived from the thrown message. *)
Theorem upload_failure_short_circuits (e : Env) (b : process_body) (thrown : string) :
  Js.present (image b) = true ->
  network e (uploadRequest b (Buffer.from_base64 (Js.orDefault (image b) ""))) = inl thrown \/
  (exists up,
     network e (uploadRequest b (Buffer.from_base64 (Js.orDefault (image b) ""))) = inr up /\
     ok up = false /\ thrown = "Failed to upload image to hosting") \/
  (exists up,
     network e (uploadRequest b (Buffer.from_base64 (Js.orDefault (image b) ""))) = inr up /\
     ok up = true /\ startsWith (text up) "https://" = false /\
     thrown = "Invalid URL from image hosting") ->
  fetches (run (process b) e) =
    [uploadRequest b (Buffer.from_base64 (Js.orDefault (image b) ""))] /\
  exists iso,
    replies (run (process b) e) =
      [{| code := statusCode thrown; headers := [];
          body := Json (errorBody (if JsString.truthy thrown then thrown
                                   else "Failed to process image") iso) |}].
Proof.
  intros Hi H.
  unfold run, process, try_catch, process_try. rewrite Hi.
  destruct H as [Hu | [(up & Hu & Hok & ->) | (up & Hu & Hok & Hs & ->)]].
  - exec. split; [reflexivity | eexists; reflexivity].
  - exec. rewrite Hok. exec. split; [reflexivity | eexists; reflexivity].
  - exec. rewrite Hok. exec. rewrite Hs, orb_true_r. exec.
    split; [reflexivity | eexists; reflexivity].
Qed.

Lemma upload_failure_short_circuits_witness :
  Js.present (image cat) = true /\
  network (stub (inr (plain 200 (Some "text/plain") "Upload rejected")) (inr transformed))
    (uploadRequest cat (Buffer.from_base64 (Js.orDefault (image cat) "")))
    = inr (plain 200 (Some "text/plain") "Upload rejected") /\
  fetches (run (process cat)
             (stub (inr (plain 200 (Some "text/plain") "Upload rejected")) (inr transformed))) =
    [uploadRequest cat (Buffer.from_base64 "aGVsbG8=")] /\
  exists iso,
    replies (run (process cat)
               (stub (inr (plain 200 (Some "text/plain") "Upload rejected")) (inr transformed))) =
      [{| code := 400; headers := [];
          body := Json (errorBody "Invalid URL from image hosting" iso) |}].
Proof.
  split; [reflexivity|]. split; [reflexivity|].
  apply (upload_failure_short_circuits
           (stub (inr (plain 200 (Some "text/plain") "Upload rejected")) (inr transformed))
           cat "Invalid URL from image hosting" eq_refl).
  right. right. eexists. repeat split; reflexivity.
Defined.

(** ** [POST /api/process]: decoding the image *)

Lemma sextets_none (s : string) :
  (forall c, In c (list_ascii_of_string s) -> Buffer.unbase64 c = None) ->
  Buffer.sextets s = [].
Proof.
  induction s as [|c s IH]; intros H; [reflexivity|].
  cbn [Buffer.sextets]. destruct (Ascii.eqb c "="); [reflexivity|].
  rewrite (H c (or_introl eq_refl)). apply IH.
  intros d Hd. apply H. right. exact Hd.
Qed.

(** A character outside the alphabet contributes nothing. *)
Lemma sextets_skip (a : string) (c : ascii) (d : string) :
  Buffer.unbase64 c = None -> c <> "="%char ->
  Buffer.sextets (a ++ String c d) = Buffer.sextets (a ++ d).
Proof.
  intros Hc Hne. induction a as [|x a IH].
  - cbn [append Buffer.sextets]. rewrite Hc.
    destruct (Ascii.eqb c "=") eqn:E; [apply Ascii.eqb_eq in E; contradiction|].
    reflexivity.
  - cbn [append Buffer.sextets]. rewrite IH. reflexivity.
Qed.

Lemma below_spec (n : nat) (p : N -> bool) :
  Base64.below n p = true -> forall k, (k < N.of_nat n)%N -> p k = true.
Proof.
  induction n as [|n IH]; intros H k Hk; [lia|].
  cbn [Base64.below] in H. apply andb_true_iff in H. destruct H as [Hn H].
  destruct (N.eq_dec k (N.of_nat n)) as [-> | Hne]; [exact Hn|].
  apply IH; [exact H | lia].
Qed.

Lemma to_N_byte (x : Byte.byte) : (Byte.to_N x < N.of_nat 256)%N.
Proof. pose proof (Byte.to_N_bounded x). lia. Qed.

Lemma octet_to_N (x : Byte.byte) : Buffer.octet (Byte.to_N x) = x.
Proof. destruct x; reflexivity. Qed.

(** Every digit character is read back as its digit, and is not [=]. *)
Lemma digit_read (d : N) :
  (d < 64)%N ->
  Buffer.unbase64 (Base64.digit d) = Some d /\ Ascii.eqb (Base64.digit d) "=" = false.
Proof.
  intros H.
  assert (C : Base64.below 64
                (fun d => match Buffer.unbase64 (Base64.digit d) with
                          | Some d' => N.eqb d' d
                          | None => false
                          end && negb (Ascii.eqb (Base64.digit d) "=")) = true)
    by (vm_compute; reflexivity).
  pose proof (below_spec _ _ C d H) as P. cbv beta in P.
  apply andb_true_iff in P. destruct P as [P1 P2].
  destruct (Buffer.unbase64 (Base64.digit d)) as [d'|]; [|discriminate].
  apply N.eqb_eq in P1. subst d'. split; [reflexivity|].
  apply negb_true_iff in P2. exact P2.
Qed.

(** The digits of a group are below 64 and decode to its bytes. *)
Lemma group_first (x y : N) :
  (x < 256)%N -> (y < 256)%N ->
  (Base64.enc0 x < 64)%N /\ (Base64.enc1 x y < 64)%N /\
  N.lor (N.shiftl (Base64.enc0 x) 2) (N.shiftr (Base64.enc1 x y) 4) = x.
Proof.
  intros Hx Hy.
  assert (C : Base64.below 256 (fun x => Base64.below 256 (fun y =>
                (Base64.enc0 x <? 64)%N && (Base64.enc1 x y <? 64)%N &&
                N.eqb (N.lor (N.shiftl (Base64.enc0 x) 2)
                         (N.shiftr (Base64.enc1 x y) 4)) x)) = true)
    by (vm_compute; reflexivity).
  pose proof (below_spec _ _ (below_spec _ _ C x Hx) y Hy) as P. cbv beta in P.
  apply andb_true_iff in P. destruct P as [P P3].
  apply andb_true_iff in P. destruct P as [P1 P2].
  apply N.ltb_lt in P1, P2. apply N.eqb_eq in P3. auto.
Qed.

Lemma group_last (y z : N) :
  (y < 256)%N -> (z < 256)%N ->
  (Base64.enc2 y z < 64)%N /\ (Base64.enc3 z < 64)%N /\
  N.lor (N.shiftl (N.land (Base64.enc2 y z) 3) 6) (Base64.enc3 z) = z.
Proof.
  intros Hy Hz.
  assert (C : Base64.below 256 (fun y => Base64.below 256 (fun z =>
                (Base64.enc2 y z <? 64)%N && (Base64.enc3 z <? 64)%N &&
                N.eqb (N.lor (N.shiftl (N.land (Base64.enc2 y z) 3) 6)
                         (Base64.enc3 z)) z)) = true)
    by (vm_compute; reflexivity).
  pose proof (below_spec _ _ (below_spec _ _ C y Hy) z Hz) as P. cbv beta in P.
  apply andb_true_iff in P. destruct P as [P P3].
  apply andb_true_iff in P. destruct P as [P1 P2].
  apply N.ltb_lt in P1, P2. apply N.eqb_eq in P3. auto.
Qed.

Lemma group_middle (x y z : N) :
  (x < 256)%N -> (y < 256)%N -> (z < 256)%N ->
  N.lor (N.shiftl (N.land (Base64.enc1 x y) 15) 4) (N.shiftr (Base64.enc2 y z) 2) = y.
Proof.
  intros Hx Hy Hz.
  assert (E : Base64.enc1 x y = Base64.enc1 (N.land x 3) y).
  { unfold Base64.enc1. rewrite <- N.land_assoc. reflexivity. }
  assert (Hp : (N.land x 3 < 4)%N).
  { assert (C : Base64.below 256 (fun x => (N.land x 3 <? N.of_nat 4)%N) = true)
      by (vm_compute; reflexivity).
    apply N.ltb_lt. exact (below_spec _ _ C x Hx). }
  rewrite E. generalize dependent (N.land x 3). intros p _ Hp.
  assert (C : Base64.below 4 (fun p => Base64.below 256 (fun y => Base64.below 256 (fun z =>
                N.eqb (N.lor (N.shiftl (N.land (Base64.enc1 p y) 15) 4)
                         (N.shiftr (Base64.enc2 y z) 2)) y))) = true)
    by (vm_compute; reflexivity).
  apply N.eqb_eq.
  exact (below_spec _ _ (below_spec _ _ (below_spec _ _ C p Hp) y Hy) z Hz).
Qed.

(** Reading the encoding gives the digits back. *)
Lemma sextets_encode (l : list Byte.byte) :
  Buffer.sextets (Base64.encode l) = Base64.digits l.
Proof.
  assert (H : forall n l, (List.length l <= n)%nat ->
              Buffer.sextets (Base64.encode l) = Base64.digits l).
  { clear l. induction n as [|n IH]; intros l Hl.
    - destruct l; [reflexivity | simpl in Hl; lia].
    - destruct l as [|x [|y [|z rest]]]; [reflexivity| | |].
      + destruct (group_first _ _ (to_N_byte x) (to_N_byte Byte.x00)) as (H0 & H1 & _).
        change (Byte.to_N Byte.x00) with 0%N in H1.
        destruct (digit_read _ H0) as [A0 B0]. destruct (digit_read _ H1) as [A1 B1].
        cbn [Base64.encode Base64.digits Buffer.sextets].
        rewrite B0, A0, B1, A1. reflexivity.
      + destruct (group_first _ _ (to_N_byte x) (to_N_byte y)) as (H0 & H1 & _).
        destruct (group_last _ _ (to_N_byte y) (to_N_byte Byte.x00)) as (H2 & _ & _).
        change (Byte.to_N Byte.x00) with 0%N in H2.
        destruct (digit_read _ H0) as [A0 B0]. destruct (digit_read _ H1) as [A1 B1].
        destruct (digit_read _ H2) as [A2 B2].
        cbn [Base64.encode Base64.digits Buffer.sextets].
        rewrite B0, A0, B1, A1, B2, A2. reflexivity.
      + destruct (group_first _ _ (to_N_byte x) (to_N_byte y)) as (H0 & H1 & _).
        destruct (group_last _ _ (to_N_byte y) (to_N_byte z)) as (H2 & H3 & _).
        destruct (digit_read _ H0) as [A0 B0]. destruct (digit_read _ H1) as [A1 B1].
        destruct (digit_read _ H2) as [A2 B2]. destruct (digit_read _ H3) as [A3 B3].
        cbn [Base64.encode Base64.digits Buffer.sextets].
        rewrite B0, A0, B1, A1, B2, A2, B3, A3.
        rewrite IH by (simpl in Hl; lia). reflexivity. }
  exact (H (List.length l) l (le_n _)).
Qed.

(** The digits of a byte sequence decode to it. *)
Lemma octets_digits (l : list Byte.byte) : Buffer.octets (Base64.digits l) = l.
Proof.
  assert (H : forall n l, (List.length l <= n)%nat ->
              Buffer.octets (Base64.digits l) = l).
  { clear l. induction n as [|n IH]; intros l Hl.
    - destruct l; [reflexivity | simpl in Hl; lia].
    - destruct l as [|x [|y [|z rest]]]; [reflexivity| | |].
      + destruct (group_first _ _ (to_N_byte x) (to_N_byte Byte.x00)) as (_ & _ & E0).
        change (Byte.to_N Byte.x00) with 0%N in E0.
        cbn [Base64.digits Buffer.octets]. rewrite E0, octet_to_N. reflexivity.
      + destruct (group_first _ _ (to_N_byte x) (to_N_byte y)) as (_ & _ & E0).
        pose proof (group_middle _ _ _ (to_N_byte x) (to_N_byte y) (to_N_byte Byte.x00))
          as E1.
        change (Byte.to_N Byte.x00) with 0%N in E1.
        cbn [Base64.digits Buffer.octets]. rewrite E0, E1, !octet_to_N. reflexivity.
      + destruct (group_first _ _ (to_N_byte x) (to_N_byte y)) as (_ & _ & E0).
        pose proof (group_middle _ _ _ (to_N_byte x) (to_N_byte y) (to_N_byte z)) as E1.
        destruct (group_last _ _ (to_N_byte y) (to_N_byte z)) as (_ & _ & E2).
        cbn [Base64.digits].
        change (Buffer.octets
                  (Base64.enc0 (Byte.to_N x) :: Base64.enc1 (Byte.to_N x) (Byte.to_N y)
                   :: Base64.enc2 (Byte.to_N y) (Byte.to_N z) :: Base64.enc3 (Byte.to_N z)
                   :: Base64.digits rest))
          with (Buffer.octet (N.lor (N.shiftl (Base64.enc0 (Byte.to_N x)) 2)
                                (N.shiftr (Base64.enc1 (Byte.to_N x) (Byte.to_N y)) 4))
                :: Buffer.octet (N.lor (N.shiftl (N.land (Base64.enc1 (Byte.to_N x)
                                                            (Byte.to_N y)) 15) 4)
                                   (N.shiftr (Base64.enc2 (Byte.to_N y) (Byte.to_N z)) 2))
                :: Buffer.octet (N.lor (N.shiftl (N.land (Base64.enc2 (Byte.to_N y)
                                                            (Byte.to_N z)) 3) 6)
                                   (Base64.enc3 (Byte.to_N z)))
                :: Buffer.octets (Base64.digits rest)).
        rewrite E0, E1, E2, !octet_to_N.
        rewrite IH by (simpl in Hl; lia). reflexivity. }
  exact (H (List.length l) l (le_n _)).
Qed.

(** Decoding inverts the standard encoding. *)
Lemma from_base64_encode (l : list Byte.byte) : Buffer.from_base64 (Base64.encode l) = l.
Proof. unfold Buffer.from_base64. rewrite sextets_encode. apply octets_digits. Qed.

(** C10. Decoding cannot reject a request: for every non-empty [image]
    string the run starts by reading the clock and uploading the decoded
    bytes to the hosting service, whatever the string holds.  The decoding
    is that of base64: an image that is the standard encoding of a byte
    sequence decodes to that sequence; a character outside the alphabet
    (other than [=]) is ignored wherever it stands; and a string without
    a single base64 character decodes to the empty buffer, which is
    uploaded all the same. *)
Theorem decoding_never_rejects (e : Env) (b : process_body) (img : string) :
  image b = Some img ->
  img <> "" ->
  (exists rest,
     run (process b) e =
       ENow (clock e 0) :: EFetch (uploadRequest b (Buffer.from_base64 img)) :: rest) /\
  (forall bytes, img = Base64.encode bytes -> Buffer.from_base64 img = bytes) /\
  (forall a c d,
     img = a ++ String c d -> Buffer.unbase64 c = None -> c <> "="%char ->
     Buffer.from_base64 img = Buffer.from_base64 (a ++ d)) /\
  ((forall c, In c (list_ascii_of_string img) -> Buffer.unbase64 c = None) ->
   Buffer.from_base64 img = []).
Proof.
  intros Hb Hne.
  assert (Hi : Js.present (image b) = true)
    by (rewrite Hb; destruct img; [contradiction | reflexivity]).
  assert (Hd : Js.orDefault (image b) "" = img)
    by (rewrite Hb; destruct img; [contradiction | reflexivity]).
  split; [|split; [|split]].
  - destruct (process_outcome e b Hi) as (rest & rep & Hrun & _).
    exists rest. rewrite <- Hd. exact Hrun.
  - intros bytes ->. apply from_base64_encode.
  - intros a c d -> Hc Hn. unfold Buffer.from_base64.
    rewrite (sextets_skip a c d Hc Hn). reflexivity.
  - intros H. unfold Buffer.from_base64. rewrite (sextets_none _ H). reflexivity.
Qed.

Lemma decoding_never_rejects_witness :
  image {| image := Some "aG Vs#bG8="; filename := None; mimetype := None |}
    = Some "aG Vs#bG8=" /\
  "aG Vs#bG8=" <> "" /\
  "aGVsbG8=" = Base64.encode (list_byte_of_string "hello") /\
  Buffer.from_base64 "aG Vs#bG8=" = list_byte_of_string "hello" /\
  (exists rest,
     run (process {| image := Some "aG Vs#bG8="; filename := None; mimetype := None |})
         (stub (inr host_ok) (inr transformed)) =
       ENow 1000 ::
       EFetch (uploadRequest {| image := Some "aG Vs#bG8="; filename := None;
                                mimetype := None |}
                 (list_byte_of_string "hello"))
       :: rest).
Proof.
  assert (Hne : "aG Vs#bG8=" <> "") by discriminate.
  assert (Hne' : "aGVsbG8=" <> "") by discriminate.
  destruct (decoding_never_rejects (stub (inr host_ok) (inr transformed))
              {| image := Some "aG Vs#bG8="; filename := None; mimetype := None |}
              "aG Vs#bG8=" eq_refl Hne) as (Hrun & _ & Hskip & _).
  destruct (decoding_never_rejects (stub (inr host_ok) (inr transformed))
              {| image := Some "aGVsbG8="; filename := None; mimetype := None |}
              "aGVsbG8=" eq_refl Hne') as (_ & Hround & _ & _).
  assert (E : Buffer.from_base64 "aG Vs#bG8=" = list_byte_of_string "hello").
  { rewrite (Hskip "aG" " "%char "Vs#bG8=" eq_refl eq_refl) by discriminate.
    destruct (decoding_never_rejects (stub (inr host_ok) (inr transformed))
                {| image := Some "aGVs#bG8="; filename := None; mimetype := None |}
                "aGVs#bG8=" eq_refl) as (_ & _ & Hskip' & _); [discriminate|].
    cbn [append].
    rewrite (Hskip' "aGVs" "#"%char "bG8=" eq_refl eq_refl) by discriminate.
    cbn [append]. apply Hround. reflexivity. }
  split; [reflexivity|]. split; [exact Hne|]. split; [reflexivity|]. split; [exact E|].
  destruct Hrun as [rest Hrun]. exists rest. rewrite Hrun, E. reflexivity.
Defined.

(** * Further properties of the handlers *)

(** ** [POST /api/process]: outbound calls *)

(** X1. A run of [process] makes no outbound call (image missing), or the
    hosting upload alone (the upload failed: rejected, non-2xx, or a body
    that does not start with [https://]), or the upload followed by one
    transform call built from the upload's body.  Nothing is called twice
    and the transform call never comes first. *)
Theorem process_calls (e : Env) (b : process_body) :
  let req := uploadRequest b (Buffer.from_base64 (Js.orDefault (image b) "")) in
  (Js.present (image b) = false /\ fetches (run (process b) e) = []) \/
  (Js.present (image b) = true /\
   fetches (run (process b) e) = [req] /\
   ((exists m, network e req = inl m) \/
    (exists up, network e req = inr up /\
                (ok up = false \/ startsWith (text up) "https://" = false)))) \/
  (exists up,
     Js.present (image b) = true /\
     network e req = inr up /\ ok up = true /\
     startsWith (text up) "https://" = true /\
     fetches (run (process b) e) = [req; apiRequest (text up)]).
Proof.
  intros req. subst req.
  destruct (Js.present (image b)) eqn:Hi.
  2: { left. split; [reflexivity|].
       unfold run, process, try_catch, process_try. rewrite Hi. reflexivity. }
  right.
  unfold run, process, try_catch, process_try. rewrite Hi.
  destruct (network e (uploadRequest b (Buffer.from_base64 (Js.orDefault (image b) ""))))
    as [m|up] eqn:Hu.
  { left. exec. repeat split. left. eexists. reflexivity. }
  exec.
  destruct (ok up) eqn:Hok.
  2: { left. exec. repeat split. right. exists up. split; [reflexivity | left; exact Hok]. }
  exec.
  destruct (startsWith (text up) "https://") eqn:Hs.
  2: { left. rewrite orb_true_r. exec. repeat split.
       right. exists up. split; [reflexivity | right; exact Hs]. }
  assert (Ht : JsString.truthy (text up) = true) by (eapply startsWith_truthy; eassumption).
  rewrite Ht.
  right. exists up. split; [reflexivity|]. split; [reflexivity|].
  split; [exact Hok|]. split; [exact Hs|].
  destruct (network e (apiRequest (text up))) as [m|r] eqn:Hr; [exec; reflexivity|].
  exec.
  destruct (ok r) eqn:Hrok; [|exec; reflexivity].
  exec.
  destruct (content_type r) as [ct|] eqn:Hct; [|exec; reflexivity].
  destruct (includes ct "application/json") eqn:Hinc;
    [|rewrite orb_true_r; exec; reflexivity].
  assert (Htc : JsString.truthy ct = true) by (destruct ct; [discriminate | reflexivity]).
  rewrite Htc.
  destruct (json r) as [m|data] eqn:Hd; [exec; reflexivity|].
  destruct data as [| |x|n|x|items|fields];
    try (exec; cbn [Js.get]; exec; reflexivity).
  exec. cbn [Js.get]. exec.
  destruct (Js.truthy (Js.lookup "success" fields)) eqn:Hsucc; [|exec; reflexivity].
  exec.
  destruct (Js.truthy (Js.lookup "result" fields)) eqn:Hrt; [|exec; reflexivity].
  exec.
  destruct (Js.lookup "result" fields) as [| |x|n|result|items|fs] eqn:Hres;
    try (exec; cbn [Js.callStartsWith]; exec; reflexivity).
  cbn [Js.callStartsWith]. exec.
  destruct (startsWith result "http") eqn:Hh; [|exec; reflexivity].
  exec.
  destruct (Js.truthy (Js.lookup "timestamp" fields)); exec; reflexivity.
Qed.

(** ** [POST /api/process]: the statuses it answers with *)

(** X2. Whatever the request and the world, every response of [process]
    has one of the statuses 200, 400, 404, 429, 503, 500. *)
Theorem process_status_set (e : Env) (b : process_body) :
  Forall (fun rep => In (code rep) processStatuses) (replies (run (process b) e)).
Proof.
  destruct (Js.present (image b)) eqn:Hi.
  - destruct (process_outcome e b Hi) as (rest & rep & Hrun & Hrep & Hcase).
    rewrite Hrun. cbn [replies flat_map app]. fold (replies rest). rewrite Hrep.
    constructor; [|constructor].
    destruct Hcase as [(m & iso & ->) | (up & r & fields & result & ts & tm & _ & _ & ->)];
      cbn [code processStatuses].
    + destruct (statusCode_cases m) as [H | [H | [H | [H | H]]]]; rewrite H;
        simpl; auto 10.
    + simpl; auto 10.
  - unfold run, process, try_catch, process_try. rewrite Hi.
    constructor; [|constructor]. simpl. auto 10.
Qed.

(** ** [POST /api/process]: a transform body that reports a failure *)

(** X3. When the parsed transform body has a falsy [success] and a
    [message] whose numbers are safe integers, the text thrown is the
    [message] itself when it is a non-empty string, [API processing
    failed] when it is falsy, and otherwise its conversion to a string (or
    the runtime's message when that conversion fails, as for an object
    with an own [toString]); the response carries that text, and its
    status is derived from it. *)
Theorem upstream_failure_message (e : Env) (b : process_body) (up r : fetch_response)
    (data success message : jsval) :
  reaches_transform e b up r ->
  ok r = true ->
  jsonShaped r = true ->
  json r = inr data ->
  Js.get data "success" = inr success ->
  Js.truthy success = false ->
  Js.get data "message" = inr message ->
  Js.safe message = true ->
  let thrown :=
    match Js.toString (Js.or message (JStr "API processing failed")) with
    | inr text => text
    | inl m => m
    end in
  (forall m, message = JStr m -> m <> "" -> thrown = m) /\
  (Js.truthy message = false -> thrown = "API processing failed") /\
  exists iso,
    replies (run (process b) e) =
      [{| code := statusCode thrown; headers := [];
          body := Json (errorBody (if JsString.truthy thrown then thrown
                                   else "Failed to process image") iso) |}].
Proof.
  intros (Hi & Hu & Hok & Hs & Hr) Hrok Hj Hd Hsucc Hfalsy Hmsg _ thrown.
  split; [|split].
  - intros m -> Hm. subst thrown. destruct m; [contradiction | reflexivity].
  - intros Hf. subst thrown. unfold Js.or. rewrite Hf. reflexivity.
  - subst thrown.
    assert (Ht : JsString.truthy (text up) = true) by (eapply startsWith_truthy; eassumption).
    destruct (jsonShaped_true _ Hj) as (ct & Hct & Htc & Hinc).
    eexists. unfold run, process, try_catch, process_try.
    rewrite Hi. exec. rewrite Hok. exec. rewrite Ht, Hs. exec. rewrite Hrok. exec.
    rewrite Hct, Htc, Hinc. exec. rewrite Hd. exec.
    rewrite Hsucc. exec. rewrite Hfalsy. exec. rewrite Hmsg. exec.
    reflexivity.
Qed.

Lemma upstream_failure_message_witness :
  reaches_transform (stub (inr host_ok) (inr upstream_refusal)) cat host_ok upstream_refusal /\
  exists iso,
    replies (run (process cat) (stub (inr host_ok) (inr upstream_refusal))) =
      [{| code := 404; headers := [];
          body := Json (errorBody "Image link expired, upload again" iso) |}].
Proof.
  assert (H : reaches_transform (stub (inr host_ok) (inr upstream_refusal)) cat
                host_ok upstream_refusal)
    by (repeat split; reflexivity).
  split; [exact H|].
  exact (proj2 (proj2
           (upstream_failure_message _ _ _ _
              (JObj [("success", JBool false);
                     ("message", JStr "Image link expired, upload again")])
              (JBool false) (JStr "Image link expired, upload again")
              H eq_refl eq_refl eq_refl eq_refl eq_refl eq_refl eq_refl))).
Defined.

(** ** [POST /api/process]: a [result] that is not a string *)

(** X4. A transform body with a truthy [success] and a truthy [result]
    that is not a string (a number, [true], an array, an object) is not
    caught by the validation of line 121: the call of [startsWith] fails
    and the request is answered with status 500 and the runtime's
    message, not with [Invalid result from API]. *)
Theorem non_string_result (e : Env) (b : process_body) (up r : fetch_response)
    (fields : list (string * jsval)) :
  reaches_transform e b up r ->
  ok r = true ->
  jsonShaped r = true ->
  json r = inr (JObj fields) ->
  Js.truthy (Js.lookup "success" fields) = true ->
  Js.truthy (Js.lookup "result" fields) = true ->
  (forall s, Js.lookup "result" fields <> JStr s) ->
  exists iso,
    replies (run (process b) e) =
      [{| code := 500; headers := [];
          body := Json (errorBody "data.result.startsWith is not a function" iso) |}].
Proof.
  intros (Hi & Hu & Hok & Hs & Hr) Hrok Hj Hd Hsucc Htr Hns.
  assert (Ht : JsString.truthy (text up) = true) by (eapply startsWith_truthy; eassumption).
  destruct (jsonShaped_true _ Hj) as (ct & Hct & Htc & Hinc).
  eexists. unfold run, process, try_catch, process_try.
  rewrite Hi. exec. rewrite Hok. exec. rewrite Ht, Hs. exec. rewrite Hrok. exec.
  rewrite Hct, Htc, Hinc. exec. rewrite Hd. exec.
  cbn [Js.get]. exec. rewrite Hsucc. exec. rewrite Htr. exec.
  destruct (Js.lookup "result" fields) as [| |x|n|s|items|fs];
    try discriminate; try (exfalso; eapply Hns; reflexivity);
    cbn [Js.callStartsWith]; exec; reflexivity.
Qed.

Lemma non_string_result_witness :
  reaches_transform (stub (inr host_ok) (inr numeric_result)) cat host_ok numeric_result /\
  Js.lookup "result" numeric_result_fields = JNum 42 /\
  exists iso,
    replies (run (process cat) (stub (inr host_ok) (inr numeric_result))) =
      [{| code := 500; headers := [];
          body := Json (errorBody "data.result.startsWith is not a function" iso) |}].
Proof.
  assert (H : reaches_transform (stub (inr host_ok) (inr numeric_result)) cat
                host_ok numeric_result)
    by (repeat split; reflexivity).
  split; [exact H|]. split; [reflexivity|].
  refine (non_string_result _ _ _ _ numeric_result_fields
            H eq_refl eq_refl eq_refl eq_refl eq_refl _).
  intros s. discriminate.
Defined.

(** ** [GET /api/download]: failures and the shape of every run *)

(** X5. When the fetch of the remote file rejects with message [m], or
    answers with a non-2xx status [st], the relay sends no file: the one
    response is status 500 with [m] (or [Failed to download image] when
    [m] is empty), respectively with [Failed to fetch image: st]. *)
Theorem download_failure (e : Env) (q : download_query) (imageUrl thrown : string) :
  query_url q = Some imageUrl ->
  imageUrl <> "" ->
  network e (downloadRequest imageUrl) = inl thrown \/
  (exists r, network e (downloadRequest imageUrl) = inr r /\ ok r = false /\
             thrown = "Failed to fetch image: " ++ ofNumber (status r)) ->
  run (download q) e =
    [EFetch (downloadRequest imageUrl);
     ESend {| code := 500; headers := [];
              body := Json (JObj [("success", JBool false);
                                  ("message",
                                   JStr (if JsString.truthy thrown then thrown
                                         else "Failed to download image"))]) |}].
Proof.
  intros Hq Hne H.
  assert (Hp : Js.present (query_url q) = true)
    by (rewrite Hq; destruct imageUrl; [contradiction | reflexivity]).
  assert (Hu : Js.orDefault (query_url q) "" = imageUrl)
    by (rewrite Hq; destruct imageUrl; [contradiction | reflexivity]).
  unfold run, download, try_catch, download_try. rewrite Hp, Hu.
  destruct H as [Hn | (r & Hn & Hok & ->)].
  - exec. reflexivity.
  - exec. rewrite Hok. exec. reflexivity.
Qed.

Lemma download_failure_witness :
  query_url {| query_url := Some "https://cdn.example/out"; query_filename := None |}
    = Some "https://cdn.example/out" /\
  "https://cdn.example/out" <> "" /\
  run (download {| query_url := Some "https://cdn.example/out"; query_filename := None |})
      (stub (inr host_ok) (inr gone)) =
    [EFetch (downloadRequest "https://cdn.example/out");
     ESend {| code := 500; headers := [];
              body := Json (JObj [("success", JBool false);
                                  ("message", JStr "Failed to fetch image: 410")]) |}].
Proof.
  assert (Hne : "https://cdn.example/out" <> "") by discriminate.
  split; [reflexivity|]. split; [exact Hne|].
  apply (download_failure (stub (inr host_ok) (inr gone))
           {| query_url := Some "https://cdn.example/out"; query_filename := None |}
           "https://cdn.example/out" "Failed to fetch image: 410" eq_refl Hne).
  right. exists gone. repeat split; reflexivity.
Defined.


(** ** The URL of the transform call *)

Lemma encodeURIComponent_cons (c : ascii) (s t : string) :
  encodeURIComponent s = t ->
  allQuerySafe t = true ->
  allQuerySafe (encodeURIComponent (String c s)) = true.
Proof.
  intros E Ht. cbn [encodeURIComponent]. rewrite E. clear E.
  destruct c as [[] [] [] [] [] [] [] []]; exact Ht.
Qed.

Lemma encodeURIComponent_safe (s : string) : allQuerySafe (encodeURIComponent s) = true.
Proof.
  induction s as [|c s IH]; [reflexivity|].
  eapply encodeURIComponent_cons; [reflexivity | exact IH].
Qed.

Lemma allQuerySafe_excludes (q : string) (c : ascii) :
  allQuerySafe q = true -> querySafe c = false -> includes q (String c "") = false.
Proof.
  intros Hq Hc. induction q as [|d q IH]; [reflexivity|].
  cbn [allQuerySafe] in Hq. apply andb_true_iff in Hq. destruct Hq as [Hd Hq].
  cbn [includes startsWith]. rewrite (IH Hq).
  destruct (Ascii.eqb d c) eqn:E; [|reflexivity].
  apply Ascii.eqb_eq in E. subst d. congruence.
Qed.

(** X7. The transform call's URL is the fixed endpoint followed by the
    escaped hosted URL, and that value consists of unreserved characters
    and [%] escapes only: whatever the hosting service answered, its text
    cannot add a parameter ([&], [=]), a fragment ([#]) or a space to the
    request. *)
Theorem transform_url_safe (imageUrl : string) :
  exists q,
    fetch_url (apiRequest imageUrl) =
      "https://api.nekolabs.web.id/style-changer/remove-clothes?imageUrl=" ++ q /\
    q = encodeURIComponent (trim imageUrl) /\
    allQuerySafe q = true /\
    includes q "&" = false /\ includes q "=" = false /\
    includes q "#" = false /\ includes q "?" = false /\
    includes q " " = false /\ includes q "/" = false.
Proof.
  exists (encodeURIComponent (trim imageUrl)).
  pose proof (encodeURIComponent_safe (trim imageUrl)) as H.
  split; [reflexivity|]. split; [reflexivity|]. split; [exact H|].
  repeat split; apply allQuerySafe_excludes; (exact H || reflexivity).
Qed.

(** * Properties of the page script *)

(** ** [processImage]: what it returns *)

(** X8. The first copy of [processImage] returns a value only when a file
    is selected, the server's response has a 2xx status, and the parsed
    body is an object with a truthy [success] and a [result] string that
    starts with [http]; the value returned is that body. *)
Theorem verbose_returns_validated (selectedFile : option file) (base64 : string)
    (server : process_body -> attempt fetch_response) (data : jsval) :
  Verbose.processImage selectedFile base64 server = inr data ->
  exists f resp fields result,
    selectedFile = Some f /\
    server (processPayload f base64) = inr resp /\
    ok resp = true /\
    json resp = inr data /\
    data = JObj fields /\
    Js.truthy (Js.lookup "success" fields) = true /\
    Js.lookup "result" fields = JStr result /\
    startsWith result "http" = true.
Proof.
  unfold Verbose.processImage.
  destruct (Verbose.processImage_try selectedFile base64 server) as [err|d] eqn:T.
  { unfold Verbose.processImage_catch.
    destruct (String.eqb (error_name err) "AbortError"); [discriminate|].
    destruct (String.eqb (error_name err) "TypeError" && includes (error_message err) "fetch");
      discriminate. }
  intros [= ->]. unfold Verbose.processImage_try in T.
  destruct selectedFile as [f|]; [|discriminate]. cbn [abind] in T.
  destruct (server (processPayload f base64)) as [err|resp] eqn:S; [discriminate|].
  cbn [abind] in T.
  destruct (notJson resp) eqn:NJ; [discriminate|]. cbn [throw_if abind] in T.
  unfold parsed in T. destruct (json resp) as [m|d] eqn:J; [discriminate|].
  cbn [abind] in T.
  destruct (ok resp) eqn:OK; cbn [negb abind] in T.
  2: { destruct (Js.get d "message"); discriminate. }
  destruct d as [| |x|n|x|items|fields]; cbn [Js.get runtime abind Js.truthy negb] in T;
    try discriminate.
  destruct (Js.truthy (Js.lookup "success" fields)) eqn:SU; cbn [negb abind] in T;
    [|discriminate].
  destruct (Js.truthy (Js.lookup "result" fields)) eqn:TR; cbn [negb throw_if abind] in T;
    [|discriminate].
  destruct (Js.lookup "result" fields) as [| |x|n|result|items|fs] eqn:R;
    cbn [Js.callStartsWith runtime abind] in T; try discriminate.
  destruct (startsWith result "http") eqn:HH; cbn [negb throw_if abind] in T;
    [|discriminate].
  injection T as <-.
  exists f, resp, fields, result. repeat split; try assumption; reflexivity.
Qed.

Lemma verbose_returns_validated_witness :
  Verbose.processImage (Some cat_file) cat_data_url (fun _ => inr (browserView transformed_reply))
    = inr (JObj [("success", JBool true);
                 ("result", JStr "https://cdn.example/out.png");
                 ("uploadedUrl", JStr "https://host.example/cat.png");
                 ("timestamp", JStr "T+1050");
                 ("timing",
                  JObj [("upload", JStr "10ms");
                        ("processing", JStr "10ms");
                        ("total", JStr "40ms")])]) /\
  exists f resp fields result,
    Some cat_file = Some f /\
    (fun _ : process_body => @inr js_error _ (browserView transformed_reply))
      (processPayload f cat_data_url) = inr resp /\
    ok resp = true /\
    json resp = inr (JObj fields) /\
    Js.lookup "result" fields = JStr result /\
    startsWith result "http" = true.
Proof.
  split; [reflexivity|].
  destruct (verbose_returns_validated (Some cat_file) cat_data_url
              (fun _ => inr (browserView transformed_reply)) _ eq_refl)
    as (f & resp & fields & result & H1 & H2 & H3 & H4 & H5 & H6 & H7 & H8).
  exists f, resp, fields, result.
  rewrite <- H5. repeat split; assumption.
Defined.

(** ** The page and the server together *)

Lemma notJson_shaped (r : fetch_response) : jsonShaped r = true -> notJson r = false.
Proof.
  intros H. destruct (jsonShaped_true _ H) as (ct & Hct & Ht & Hi).
  unfold notJson. rewrite Hct, Ht, Hi. reflexivity.
Qed.

(** The two shapes of the one response of [process], as a client sees
    them. *)
Lemma process_reply_shape (e : Env) (b : process_body) (rep : reply) :
  replies (run (process b) e) = [rep] ->
  (code rep = 200 /\
   exists result others,
     body rep = Json (JObj (("success", JBool true) :: ("result", JStr result) :: others)) /\
     startsWith result "http" = true) \/
  (In (code rep) [400; 404; 429; 503; 500] /\
   exists m others,
     body rep = Json (JObj (("success", JBool false) :: ("message", JStr m) :: others)) /\
     JsString.truthy m = true).
Proof.
  intros Hrun.
  destruct (Js.present (image b)) eqn:Hi.
  - destruct (process_outcome e b Hi) as (rest & rep' & Hrun' & Hrep & Hcase).
    rewrite Hrun' in Hrun. cbn [replies flat_map app] in Hrun. fold (replies rest) in Hrun.
    rewrite Hrep in Hrun. injection Hrun as <-.
    destruct Hcase as [(m & iso & ->) | (up & r & fields & result & ts & tm & _ & T & ->)].
    + right. cbn [code body]. split.
      * destruct (statusCode_cases m) as [H | [H | [H | [H | H]]]]; rewrite H;
          simpl; auto 10.
      * do 2 eexists. split; [reflexivity|]. destruct m; reflexivity.
    + left. cbn [code body]. split; [reflexivity|].
      do 2 eexists. split; [reflexivity|]. apply T.
  - unfold run, process, try_catch, process_try in Hrun. rewrite Hi in Hrun.
    injection Hrun as <-. right. cbn [code body]. split; [simpl; auto|].
    do 2 eexists. split; reflexivity.
Qed.

Lemma not_ok_error_status (st : Z) :
  In st [400; 404; 429; 503; 500] -> (200 <=? st) && (st <? 300) = false.
Proof.
  intros H. simpl in H.
  destruct H as [<- | [<- | [<- | [<- | [<- | []]]]]]; reflexivity.
Qed.

(** X9. The first copy of the page against the server: when the response
    the browser receives is the server's reply to the request body the
    page built, [processImage] returns the reply's body if its status is
    200 (the page's own checks never reject a success of the server), and
    otherwise throws an [Error] whose message is the server's [message],
    unchanged. *)
Theorem verbose_shows_server_reply (e : Env) (f : file) (base64 : string)
    (server : process_body -> attempt fetch_response) (rep : reply) (resp : fetch_response) :
  replies (run (process (processPayload f base64)) e) = [rep] ->
  server (processPayload f base64) = inr resp ->
  delivers rep resp ->
  (code rep = 200 /\
   exists data, body rep = Json data /\
                Verbose.processImage (Some f) base64 server = inr data) \/
  (code rep <> 200 /\
   exists m others,
     body rep = Json (JObj (("success", JBool false) :: ("message", JStr m) :: others)) /\
     Verbose.processImage (Some f) base64 server = inl (Error m)).
Proof.
  intros Hrun Hsrv (Hst & Hjs & v & Hv & Hjson).
  unfold Verbose.processImage, Verbose.processImage_try. cbn [abind].
  rewrite Hsrv. cbn [abind]. rewrite (notJson_shaped _ Hjs). cbn [throw_if abind].
  unfold parsed. rewrite Hjson. cbn [abind]. unfold ok. rewrite Hst.
  destruct (process_reply_shape _ _ _ Hrun)
    as [(Hc & result & others & Hb & Hh) | (Hc & m & others & Hb & Hm)].
  - left. split; [exact Hc|]. exists v. split; [exact Hv|].
    rewrite Hb in Hv. injection Hv as <-. rewrite Hc.
    destruct result as [|c result]; [discriminate|].
    cbn -[startsWith]. rewrite Hh. reflexivity.
  - right. split.
    { intros H. rewrite H in Hc. simpl in Hc. intuition discriminate. }
    exists m, others. split; [exact Hb|].
    rewrite Hb in Hv. injection Hv as <-.
    rewrite (not_ok_error_status _ Hc). cbn. unfold Js.or. cbn. rewrite Hm.
    reflexivity.
Qed.

Lemma verbose_shows_server_reply_witness :
  replies (run (process (processPayload cat_file cat_data_url))
             (stub (inr host_ok) (inr upstream_refusal)))
    = [{| code := 404; headers := [];
          body := Json (errorBody "Image link expired, upload again" "T+1040") |}] /\
  Verbose.processImage (Some cat_file) cat_data_url
    (fun _ => inr (browserView
                     {| code := 404; headers := [];
                        body := Json (errorBody "Image link expired, upload again"
                                        "T+1040") |}))
    = inl (Error "Image link expired, upload again").
Proof.
  split; [reflexivity|].
  destruct (verbose_shows_server_reply
              (stub (inr host_ok) (inr upstream_refusal)) cat_file cat_data_url
              (fun _ => inr (browserView
                               {| code := 404; headers := [];
                                  body := Json (errorBody "Image link expired, upload again"
                                                  "T+1040") |}))
              _ _ eq_refl eq_refl
              (conj eq_refl (conj eq_refl (ex_intro _ _ (conj eq_refl eq_refl)))))
    as [(Hc & _) | (_ & m & others & Hb & Hp)].
  - discriminate Hc.
  - injection Hb as <- _. exact Hp.
Defined.

(** X10. The second copy of the page against the server: the same holds
    for its [processImage], which has no check of the result URL. *)
Theorem plain_shows_server_reply (e : Env) (f : file) (base64 : string)
    (server : process_body -> attempt fetch_response) (rep : reply) (resp : fetch_response) :
  replies (run (process (processPayload f base64)) e) = [rep] ->
  server (processPayload f base64) = inr resp ->
  delivers rep resp ->
  (code rep = 200 /\
   exists data, body rep = Json data /\
                Plain.processImage (Some f) base64 server = inr data) \/
  (code rep <> 200 /\
   exists m others,
     body rep = Json (JObj (("success", JBool false) :: ("message", JStr m) :: others)) /\
     Plain.processImage (Some f) base64 server = inl (Error m)).
Proof.
  intros Hrun Hsrv (Hst & Hjs & v & Hv & Hjson).
  unfold Plain.processImage. cbn [abind].
  rewrite Hsrv. cbn [abind]. rewrite (notJson_shaped _ Hjs). cbn [throw_if abind].
  unfold parsed. rewrite Hjson. cbn [abind]. unfold ok. rewrite Hst.
  destruct (process_reply_shape _ _ _ Hrun)
    as [(Hc & result & others & Hb & Hh) | (Hc & m & others & Hb & Hm)].
  - left. split; [exact Hc|]. exists v. split; [exact Hv|].
    rewrite Hb in Hv. injection Hv as <-. rewrite Hc.
    cbn. destruct result; [discriminate | reflexivity].
  - right. split.
    { intros H. rewrite H in Hc. simpl in Hc. intuition discriminate. }
    exists m, others. split; [exact Hb|].
    rewrite Hb in Hv. injection Hv as <-.
    rewrite (not_ok_error_status _ Hc). cbn. unfold Js.or. cbn. rewrite Hm.
    reflexivity.
Qed.

Lemma plain_shows_server_reply_witness :
  replies (run (process (processPayload cat_file cat_data_url))
             (stub (inr host_ok) (inr transformed)))
    = [transformed_reply] /\
  Plain.processImage (Some cat_file) cat_data_url
    (fun _ => inr (browserView transformed_reply))
    = inr (JObj [("success", JBool true);
                 ("result", JStr "https://cdn.example/out.png");
                 ("uploadedUrl", JStr "https://host.example/cat.png");
                 ("timestamp", JStr "T+1050");
                 ("timing",
                  JObj [("upload", JStr "10ms");
                        ("processing", JStr "10ms");
                        ("total", JStr "40ms")])]).
Proof.
  split; [reflexivity|].
  destruct (plain_shows_server_reply
              (stub (inr host_ok) (inr transformed)) cat_file cat_data_url
              (fun _ => inr (browserView transformed_reply))
              _ _ eq_refl eq_refl
              (conj eq_refl (conj eq_refl (ex_intro _ _ (conj eq_refl eq_refl)))))
    as [(_ & data & Hb & Hp) | (Hc & _)].
  - injection Hb as <-. exact Hp.
  - exfalso. apply Hc. reflexivity.
Defined.

(** ** The request body the page builds *)

Lemma includes_comma_cons (c : ascii) (s : string) :
  includes (String c s) "," = false ->
  Ascii.eqb c "," = false /\ includes s "," = false.
Proof.
  cbn [includes startsWith]. destruct (Ascii.eqb c ","); [discriminate|].
  cbn [orb]. auto.
Qed.

Lemma untilComma_whole (s : string) : includes s "," = false -> untilComma s = s.
Proof.
  induction s as [|c s IH]; intros H; [reflexivity|].
  apply includes_comma_cons in H. destruct H as [Hc Hs].
  cbn [untilComma]. rewrite Hc, (IH Hs). reflexivity.
Qed.

Lemma split_1_none (s : string) : includes s "," = false -> split_1 s = None.
Proof.
  induction s as [|c s IH]; intros H; [reflexivity|].
  apply includes_comma_cons in H. destruct H as [Hc Hs].
  cbn [split_1]. rewrite Hc. exact (IH Hs).
Qed.

Lemma split_1_data_url (pre b64 : string) :
  includes pre "," = false -> includes b64 "," = false ->
  split_1 (pre ++ "," ++ b64) = Some b64.
Proof.
  intros Hp Hb. induction pre as [|c pre IH].
  - cbn. rewrite (untilComma_whole _ Hb). reflexivity.
  - apply includes_comma_cons in Hp. destruct Hp as [Hc Hp].
    cbn [append split_1]. rewrite Hc. exact (IH Hp).
Qed.

(** X11. For a data URL [<header>,<base64>] (no comma in either part) the
    request body carries exactly the base64 part as [image], with the
    file's name and type, so the server uploads the file's decoded bytes
    under that name and type. *)
Theorem data_url_payload (f : file) (header b64 : string) :
  includes header "," = false ->
  includes b64 "," = false ->
  processPayload f (header ++ "," ++ b64) =
    {| image := Some b64; filename := Some (file_name f); mimetype := Some (file_type f) |}
  /\
  (b64 <> "" -> file_name f <> "" -> file_type f <> "" ->
   uploadRequest (processPayload f (header ++ "," ++ b64))
     (Buffer.from_base64
        (Js.orDefault (image (processPayload f (header ++ "," ++ b64))) "")) =
   {| fetch_url := "https://catbox.moe/user/api.php";
      fetch_method := "POST";
      fetch_hdrs := FormDataHeaders;
      fetch_body := [TextPart "reqtype" "fileupload";
                     FilePart "fileToUpload" (Buffer.from_base64 b64)
                       (file_name f) (file_type f)] |}).
Proof.
  intros Hh Hb.
  assert (E : processPayload f (header ++ "," ++ b64) =
              {| image := Some b64; filename := Some (file_name f);
                 mimetype := Some (file_type f) |}).
  { unfold processPayload. rewrite (split_1_data_url _ _ Hh Hb). reflexivity. }
  split; [exact E|].
  intros H1 H2 H3. rewrite E. unfold uploadRequest. cbn [image filename mimetype].
  destruct b64; [contradiction|].
  destruct (file_name f); [contradiction|].
  destruct (file_type f); [contradiction|]. reflexivity.
Qed.

Lemma data_url_payload_witness :
  includes "data:image/png;base64" "," = false /\
  includes "aGVsbG8=" "," = false /\
  processPayload cat_file cat_data_url =
    {| image := Some "aGVsbG8="; filename := Some "cat.png"; mimetype := Some "image/png" |}.
Proof.
  split; [reflexivity|]. split; [reflexivity|].
  exact (proj1 (data_url_payload cat_file "data:image/png;base64" "aGVsbG8="
                  eq_refl eq_refl)).
Defined.

(** X12. A read result without a comma, or with nothing after its comma
    (the data URL of an empty file), reaches the server without image
    data: the server answers 400 [No image data provided] and calls
    nothing. *)
Theorem empty_read_rejected (e : Env) (f : file) (base64 : string) :
  includes base64 "," = false \/
  (exists header, includes header "," = false /\ base64 = header ++ ",") ->
  run (process (processPayload f base64)) e =
    [ESend {| code := 400; headers := [];
              body := Json (JObj [("success", JBool false);
                                  ("message", JStr "No image data provided")]) |}].
Proof.
  intros H.
  assert (E : Js.present (image (processPayload f base64)) = false).
  { unfold processPayload. cbn [image].
    destruct H as [H | (header & Hh & ->)].
    - rewrite (split_1_none _ H). reflexivity.
    - change (header ++ ",") with (header ++ "," ++ "").
      rewrite (split_1_data_url header "" Hh eq_refl). reflexivity. }
  unfold run, process, try_catch, process_try. rewrite E. reflexivity.
Qed.

Lemma empty_read_rejected_witness :
  (exists header, includes header "," = false /\
                  "data:image/png;base64," = header ++ ",") /\
  run (process (processPayload cat_file "data:image/png;base64,"))
      (stub (inr host_ok) (inr transformed)) =
    [ESend {| code := 400; headers := [];
              body := Json (JObj [("success", JBool false);
                                  ("message", JStr "No image data provided")]) |}].
Proof.
  assert (H : exists header, includes header "," = false /\
                             "data:image/png;base64," = header ++ ",")
    by (exists "data:image/png;base64"; split; reflexivity).
  split; [exact H|].
  exact (empty_read_rejected (stub (inr host_ok) (inr transformed)) cat_file
           "data:image/png;base64," (or_intror H)).
Defined.

(** ** The download link of the page *)

Lemma allUnreserved_app (a b : string) :
  allUnreserved (a ++ b) = allUnreserved a && allUnreserved b.
Proof.
  induction a as [|c a IH]; [reflexivity|].
  cbn [append allUnreserved]. rewrite IH. apply andb_assoc.
Qed.

Lemma length_app (a b : string) :
  String.length (a ++ b) = (String.length a + String.length b)%nat.
Proof. induction a as [|c a IH]; simpl; [reflexivity | now rewrite IH]. Qed.

Lemma encodeURIComponent_unreserved (s : string) :
  allUnreserved s = true -> encodeURIComponent s = s.
Proof.
  induction s as [|c s IH]; intros H; [reflexivity|].
  cbn [allUnreserved] in H. apply andb_true_iff in H. destruct H as [Hc Hs].
  cbn [encodeURIComponent]. rewrite Hc, (IH Hs). reflexivity.
Qed.

Lemma allUnreserved_safe (s : string) : allUnreserved s = true -> allQuerySafe s = true.
Proof.
  induction s as [|c s IH]; intros H; [reflexivity|].
  cbn [allUnreserved] in H. apply andb_true_iff in H. destruct H as [Hc Hs].
  cbn [allQuerySafe]. unfold querySafe. rewrite Hc, (IH Hs). reflexivity.
Qed.

Lemma charAt_chars (k : nat) :
  (k < 36)%nat ->
  exists c, charAt chars k = String c "" /\ uriUnreserved c = true.
Proof.
  intros H.
  do 36 (destruct k as [|k]; [eexists; split; reflexivity|]).
  lia.
Qed.

Lemma randomChars_spec (draw : nat -> nat) :
  (forall i, (draw i < 36)%nat) ->
  forall n i random,
    allUnreserved random = true ->
    allUnreserved (randomChars draw n i random) = true /\
    String.length (randomChars draw n i random) = (String.length random + n)%nat.
Proof.
  intros Hd. induction n as [|n IH]; intros i random Hr.
  - cbn [randomChars]. split; [exact Hr | lia].
  - cbn [randomChars].
    destruct (charAt_chars (draw i) (Hd i)) as (c & Hc & Hu). rewrite Hc.
    destruct (IH (S i) (random ++ String c "")) as [H1 H2].
    + rewrite allUnreserved_app, Hr. cbn [allUnreserved]. rewrite Hu. reflexivity.
    + split; [exact H1|]. rewrite H2, length_app. simpl. lia.
Qed.

Lemma generateRandomFilename_unreserved (draw : nat -> nat) :
  (forall i, (draw i < 36)%nat) -> allUnreserved (generateRandomFilename draw) = true.
Proof.
  intros Hd. destruct (randomChars_spec draw Hd 8 0 "" eq_refl) as [Hu _].
  unfold generateRandomFilename. rewrite !allUnreserved_app, Hu. reflexivity.
Qed.

(** X13. Whatever [Math.random] draws, [generateRandomFilename] returns
    [result_] followed by eight characters and [.png]; every character is
    one that [encodeURIComponent] leaves alone, so the name is its own
    escaped form and can be put in the link as it is. *)
Theorem generateRandomFilename_shape (draw : nat -> nat) :
  (forall i, (draw i < 36)%nat) ->
  exists random,
    generateRandomFilename draw = "result_" ++ random ++ ".png" /\
    String.length random = 8%nat /\
    allUnreserved (generateRandomFilename draw) = true /\
    encodeURIComponent (generateRandomFilename draw) = generateRandomFilename draw.
Proof.
  intros Hd.
  destruct (randomChars_spec draw Hd 8 0 "" eq_refl) as [Hu Hl].
  pose proof (generateRandomFilename_unreserved draw Hd) as A.
  exists (randomChars draw 8 0 "").
  split; [reflexivity|]. split; [exact Hl|]. split; [exact A|].
  apply encodeURIComponent_unreserved, A.
Qed.

Lemma draw_sample_range (i : nat) : (draw_sample i < 36)%nat.
Proof. unfold draw_sample. apply Nat.mod_upper_bound. discriminate. Qed.

Lemma generateRandomFilename_shape_witness :
  (forall i, (draw_sample i < 36)%nat) /\
  generateRandomFilename draw_sample = "result_dkry5cjq.png" /\
  exists random,
    generateRandomFilename draw_sample = "result_" ++ random ++ ".png" /\
    String.length random = 8%nat.
Proof.
  split; [exact draw_sample_range|]. split; [reflexivity|].
  destruct (generateRandomFilename_shape draw_sample draw_sample_range)
    as (random & H1 & H2 & _).
  exists random. split; assumption.
Defined.

(** X14. [handleDownload] does nothing while there is no result URL.
    With one, the link it clicks is [/api/download?url=<escaped
    URL>&filename=<random name>], where neither value contains [&], [=] or
    [#]: the address has exactly these two parameters, whatever the
    result URL holds. *)
Theorem handleDownload_link (resultImageUrl : option string) (draw : nat -> nat) :
  (forall i, (draw i < 36)%nat) ->
  (resultImageUrl = None \/ resultImageUrl = Some "" ->
   handleDownload resultImageUrl draw = None) /\
  (forall u, resultImageUrl = Some u -> u <> "" ->
     exists q name,
       handleDownload resultImageUrl draw =
         Some ("/api/download?url=" ++ q ++ "&filename=" ++ name) /\
       q = encodeURIComponent u /\
       name = generateRandomFilename draw /\
       includes q "&" = false /\ includes q "=" = false /\ includes q "#" = false /\
       includes name "&" = false /\ includes name "=" = false /\
       includes name "#" = false).
Proof.
  intros Hd. split.
  - intros [-> | ->]; reflexivity.
  - intros u -> Hu.
    exists (encodeURIComponent u), (generateRandomFilename draw).
    pose proof (encodeURIComponent_safe u) as Hq.
    pose proof (allUnreserved_safe _ (generateRandomFilename_unreserved draw Hd)) as Hn.
    split.
    + unfold handleDownload. destruct u; [contradiction|]. reflexivity.
    + split; [reflexivity|]. split; [reflexivity|].
      repeat split; apply allQuerySafe_excludes; (assumption || reflexivity).
Qed.

Lemma handleDownload_link_witness :
  (forall i, (draw_sample i < 36)%nat) /\
  handleDownload None draw_sample = None /\
  handleDownload (Some "https://cdn.example/a b.png?x=1&y=2") draw_sample =
    Some "/api/download?url=https%3A%2F%2Fcdn.example%2Fa%20b.png%3Fx%3D1%26y%3D2&filename=result_dkry5cjq.png".
Proof.
  split; [exact draw_sample_range|].
  split.
  - exact (proj1 (handleDownload_link None draw_sample draw_sample_range)
             (or_introl eq_refl)).
  - reflexivity.
Defined.

Lemma charAt_chars_legal (k : nat) : legalHeader (charAt chars k) = true.
Proof. do 36 (destruct k as [|k]; [reflexivity|]). reflexivity. Qed.

Lemma randomChars_legal (draw : nat -> nat) (n i : nat) (random : string) :
  legalHeader random = true -> legalHeader (randomChars draw n i random) = true.
Proof.
  revert i random. induction n as [|n IH]; intros i random H; [exact H|].
  cbn [randomChars]. apply IH. rewrite legalHeader_app, H. apply charAt_chars_legal.
Qed.

Lemma generateRandomFilename_legal (draw : nat -> nat) :
  legalHeader (generateRandomFilename draw) = true.
Proof.
  unfold generateRandomFilename.
  rewrite !legalHeader_app, (randomChars_legal draw 8 0 "" eq_refl). reflexivity.
Qed.

(** X15. A download requested through the page's link carries the page's
    random name, so the relay never derives a name of its own: the file
    is sent as [result_<random>.png] whatever content type the remote
    host reports, and the clock is not read. *)
Theorem page_download_name (e : Env) (u : string) (draw : nat -> nat)
    (r : fetch_response) :
  u <> "" ->
  network e (downloadRequest u) = inr r ->
  ok r = true ->
  run (download {| query_url := Some u;
                   query_filename := Some (generateRandomFilename draw) |}) e =
    [EFetch (downloadRequest u);
     ESend {| code := 200;
              headers :=
                [("Content-Type", JStr (Js.orDefault (content_type r) "image/png"));
                 ("Content-Disposition",
                  JStr ("attachment; filename=" ++ dquote
                        ++ generateRandomFilename draw ++ dquote));
                 ("Content-Length", JNum (Z.of_nat (List.length (buffer r))));
                 ("Cache-Control", JStr "no-cache")];
              body := Bytes (buffer r) |}].
Proof.
  intros Hu Hn Hok.
  unfold run, download, try_catch, download_try. cbn [query_url query_filename].
  assert (Hp : Js.present (Some u) = true) by (destruct u; [contradiction | reflexivity]).
  assert (Ho : Js.orDefault (Some u) "" = u) by (destruct u; [contradiction | reflexivity]).
  rewrite Hp, Ho. exec. rewrite Hok. exec.
  replace (Js.present (Some (generateRandomFilename draw))) with true by reflexivity.
  replace (Js.orDefault (Some (generateRandomFilename draw)) "")
    with (generateRandomFilename draw) by reflexivity.
  exec. pose proof (generateRandomFilename_legal draw) as Hl.
  set_headers Hl. reflexivity.
Qed.

Lemma page_download_name_witness :
  "https://cdn.example/out" <> "" /\
  content_type jpeg_file = Some "image/jpeg" /\
  replies (run (download {| query_url := Some "https://cdn.example/out";
                            query_filename := Some (generateRandomFilename draw_sample) |})
             (stub (inr host_ok) (inr jpeg_file))) =
    [{| code := 200;
        headers :=
          [("Content-Type", JStr "image/jpeg");
           ("Content-Disposition",
            JStr ("attachment; filename=" ++ dquote ++ "result_dkry5cjq.png" ++ dquote));
           ("Content-Length", JNum 4);
           ("Cache-Control", JStr "no-cache")];
        body := Bytes (list_byte_of_string "JFIF") |}].
Proof.
  assert (Hne : "https://cdn.example/out" <> "") by discriminate.
  split; [exact Hne|]. split; [reflexivity|].
  rewrite (page_download_name (stub (inr host_ok) (inr jpeg_file))
             "https://cdn.example/out" draw_sample jpeg_file Hne eq_refl eq_refl).
  reflexivity.
Defined.

(** ** The file selection of the page *)

Lemma acceptable_dec (f : file) :
  acceptable f <->
  negb (startsWith (file_type f) "image/") = false /\
  (file_size f >? 10 * 1024 * 1024) = false.
Proof.
  unfold acceptable. rewrite negb_false_iff.
  change (10 * 1024 * 1024) with 10485760.
  split; intros [H1 H2]; (split; [exact H1|]).
  - rewrite Z.gtb_ltb. apply Z.ltb_ge. exact H2.
  - rewrite Z.gtb_ltb in H2. apply Z.ltb_ge in H2. exact H2.
Qed.

(** X16. [handleFile] starts reading a file exactly when its type starts
    with [image/] and its size is at most 10485760 bytes; it then becomes
    the selection and no message is touched.  Any other file leaves the
    selection as it was and shows a message: the type is judged before the
    size. *)
Theorem handleFile_accepts (f : file) (s : page) :
  (acceptable f <-> snd (handleFile (Some f) s) = Some f) /\
  (acceptable f ->
   selectedFile (fst (handleFile (Some f) s)) = Some f /\
   errorText (fst (handleFile (Some f) s)) = errorText s /\
   errorMessage_hidden (fst (handleFile (Some f) s)) = errorMessage_hidden s) /\
  (~ acceptable f ->
   handleFile (Some f) s =
     (showError (if startsWith (file_type f) "image/"
                 then "File size must be less than 10MB"
                 else "Please upload a valid image file") s, None) /\
   selectedFile (fst (handleFile (Some f) s)) = selectedFile s).
Proof.
  pose proof (acceptable_dec f) as D.
  unfold handleFile.
  destruct (startsWith (file_type f) "image/") eqn:T; cbn [negb] in *.
  - destruct (file_size f >? 10 * 1024 * 1024) eqn:Z; cbn [fst snd selectedFile
      errorText errorMessage_hidden].
    + split; [split; [intros A; apply D in A; destruct A; discriminate | discriminate]|].
      split; [intros A; apply D in A; destruct A; discriminate|].
      intros _. split; reflexivity.
    + split; [split; [reflexivity | intros _; apply D; split; reflexivity]|].
      split; [intros _; repeat split|].
      intros N. exfalso. apply N, D. split; reflexivity.
  - cbn [fst snd]. split; [split; [intros A; apply D in A; destruct A; discriminate
                                  | discriminate]|].
    split; [intros A; apply D in A; destruct A; discriminate|].
    intros _. split; reflexivity.
Qed.

Example handleFile_limit :
  snd (handleFile (Some limit_file) blank_page) = Some limit_file /\
  handleFile (Some big_file) blank_page =
    (showError "File size must be less than 10MB" blank_page, None).
Proof. split; reflexivity. Qed.

Lemma page_step_selection (s : page) (ev : page_event) :
  selection_ok s -> selection_ok (page_step s ev).
Proof.
  intros H. unfold selection_ok in *.
  assert (HF : forall f s', (match selectedFile s' with None => True | Some g => acceptable g end) ->
               match selectedFile (fst (handleFile f s')) with
               | None => True | Some g => acceptable g end).
  { intros [f|] s' Hs'; [|exact Hs'].
    unfold handleFile.
    destruct (negb (startsWith (file_type f) "image/")) eqn:T; [exact Hs'|].
    destruct (file_size f >? 10 * 1024 * 1024) eqn:Z; [exact Hs'|].
    cbn [fst selectedFile]. apply acceptable_dec. split; assumption. }
  destruct ev; cbn [page_step]; try exact H; try exact I.
  - apply HF, H.
  - apply HF. exact H.
Qed.

(** X17. However the file input, the drop zone, the remove and reset
    buttons and the read callbacks are exercised, the selected file is
    never one that [handleFile] would refuse: it is absent, or an image
    type of at most 10485760 bytes. *)
Theorem selection_stays_acceptable (s : page) (evs : list page_event) :
  selection_ok s -> selection_ok (page_run s evs).
Proof.
  unfold page_run. revert s.
  induction evs as [|ev evs IH]; intros s H; [exact H|].
  cbn [fold_left]. apply IH, page_step_selection, H.
Qed.

Lemma selection_stays_acceptable_witness :
  selection_ok blank_page /\
  selection_ok (page_run blank_page
                  [Change (Some cat_file); Loaded cat_data_url; DragOver;
                   Drop (Some big_file); ReadFailed]) /\
  selectedFile (page_run blank_page
                  [Change (Some cat_file); Loaded cat_data_url; DragOver;
                   Drop (Some big_file); ReadFailed]) = Some cat_file.
Proof.
  split; [exact I|]. split; [|reflexivity].
  apply (selection_stays_acceptable blank_page). exact I.
Defined.

Lemma page_step_button (s : page) (ev : page_event) :
  button_ok s -> button_ok (page_step s ev).
Proof.
  intros H. unfold button_ok in *.
  assert (HF : forall f s',
             (generateBtn_disabled s' = false ->
              previewContainer_hidden s' = false /\ uploadBox_hidden s' = true) ->
             generateBtn_disabled (fst (handleFile f s')) = false ->
             previewContainer_hidden (fst (handleFile f s')) = false /\
             uploadBox_hidden (fst (handleFile f s')) = true).
  { intros [f|] s' Hs'; [|exact Hs'].
    unfold handleFile.
    destruct (negb (startsWith (file_type f) "image/")); [exact Hs'|].
    destruct (file_size f >? 10 * 1024 * 1024); exact Hs'. }
  destruct ev; cbn [page_step]; try exact H.
  - apply HF, H.
  - apply HF. exact H.
  - intros _. split; reflexivity.
  - discriminate.
  - discriminate.
Qed.

(** X18. Along the same events, whenever the generate button is enabled
    the preview is shown and the upload box is hidden: only a completed
    read enables the button, and removing or resetting disables it. *)
Theorem button_follows_preview (s : page) (evs : list page_event) :
  button_ok s -> button_ok (page_run s evs).
Proof.
  unfold page_run. revert s.
  induction evs as [|ev evs IH]; intros s H; [exact H|].
  cbn [fold_left]. apply IH, page_step_button, H.
Qed.

Lemma button_follows_preview_witness :
  button_ok blank_page /\
  generateBtn_disabled (page_run blank_page [Change (Some cat_file); Loaded cat_data_url])
    = false /\
  button_ok (page_run blank_page [Change (Some cat_file); Loaded cat_data_url]).
Proof.
  assert (H : button_ok blank_page) by (intros H; discriminate H).
  split; [exact H|]. split; [reflexivity|].
  apply (button_follows_preview blank_page _ H).
Defined.

(** X19. Removing the image undoes a selection: choosing an acceptable
    file, completing its read and then removing it leaves the page
    exactly as removing alone would have. *)
Theorem remove_undoes_selection (f : file) (result : string) (s : page) :
  acceptable f ->
  handleRemoveImage (reader_onload result (fst (handleFile (Some f) s))) =
  handleRemoveImage s.
Proof.
  intros A. apply acceptable_dec in A. destruct A as [T Z].
  unfold handleFile. rewrite T, Z. reflexivity.
Qed.

Lemma remove_undoes_selection_witness :
  acceptable cat_file /\
  handleRemoveImage (reader_onload cat_data_url (fst (handleFile (Some cat_file) blank_page)))
  = handleRemoveImage blank_page.
Proof.
  assert (A : acceptable cat_file) by (split; [reflexivity | discriminate]).
  split; [exact A|]. exact (remove_undoes_selection cat_file cat_data_url blank_page A).
Defined.

(** X20. The type of an accepted file reaches the hosting service: the
    upload made for the page's request body carries the file's own type,
    which starts with [image/], never the default. *)
Theorem accepted_type_reaches_host (f : file) (base64 : string) (buf : list Byte.byte) :
  acceptable f ->
  exists name,
    fetch_body (uploadRequest (processPayload f base64) buf) =
      [TextPart "reqtype" "fileupload";
       FilePart "fileToUpload" buf name (file_type f)] /\
    name = (if JsString.truthy (file_name f) then file_name f else "image.png") /\
    startsWith (file_type f) "image/" = true.
Proof.
  intros [T _]. eexists. split; [|split; [reflexivity | exact T]].
  unfold uploadRequest, processPayload. cbn [fetch_body filename mimetype Js.orDefault].
  destruct (file_type f); [discriminate|]. reflexivity.
Qed.

Lemma accepted_type_reaches_host_witness :
  acceptable cat_file /\
  fetch_body (uploadRequest (processPayload cat_file cat_data_url)
                (Buffer.from_base64 "aGVsbG8=")) =
    [TextPart "reqtype" "fileupload";
     FilePart "fileToUpload" (list_byte_of_string "hello") "cat.png" "image/png"].
Proof.
  assert (A : acceptable cat_file) by (split; [reflexivity | discriminate]).
  split; [exact A|].
  destruct (accepted_type_reaches_host cat_file cat_data_url
              (Buffer.from_base64 "aGVsbG8=") A) as (name & H & -> & _).
  exact H.
Defined.
